(** * Document-portal backend: registration, login and document lookup

    A shallow embedding of the three Express handlers of [src/server.js] and of
    its second copy [src/unnamed/part_000].  The handlers are written once per
    file, as programs over the calls they make to their collaborators
    ([bcrypt], the [pg] connection pool, [console.error]); an interpreter runs
    such a program against a world that answers the calls. *)

From Stdlib Require Import String Ascii List Bool ZArith Lia SpecFloat.
Import ListNotations.
Local Open Scope string_scope.
Local Open Scope list_scope.

Set Implicit Arguments.
Local Set Warnings "-register-all".

(** ** JavaScript values *)

(** The values that a parsed JSON body, a result row or a response body is
    made of.  Numbers are IEEE doubles, as in JavaScript: signed zeros,
    infinities, NaN and the finite values. *)
Inductive jsval : Type :=
| JUndefined
| JNull
| JBool (b : bool)
| JNum (x : spec_float)
| JStr (s : string)
| JArr (items : list jsval)
| JObj (fields : list (string * jsval)).

(** A plain object: own properties, first binding wins. *)
Definition jsobject := list (string * jsval).

(** [ToBoolean]: [undefined], [null], [false], [0], [-0], [NaN] and the empty
    string are falsy, everything else (every array and object) is truthy. *)
Definition truthy (v : jsval) : bool :=
  match v with
  | JUndefined | JNull => false
  | JBool b => b
  | JNum (S754_zero _) | JNum S754_nan => false
  | JNum _ => true
  | JStr s => negb (String.eqb s EmptyString)
  | JArr _ | JObj _ => true
  end.

(** Property read [o.k] on a plain object: [undefined] when absent. *)
Fixpoint prop (k : string) (o : jsobject) : jsval :=
  match o with
  | [] => JUndefined
  | (k', v) :: rest => if String.eqb k k' then v else prop k rest
  end.

(** [v === s] for a string literal [s]. *)
Definition strict_eq_str (v : jsval) (s : string) : bool :=
  match v with
  | JStr t => String.eqb t s
  | _ => false
  end.

(** ** Errors, outcomes and responses *)

(** A thrown [Error] object: its name, its message and its [code] property
    ([undefined] unless the thrower sets one, as [pg] does with the SQLSTATE). *)
Record jserror : Type := mkError {
  err_name : string;
  err_message : string;
  err_code : jsval
}.

(** A settled promise: fulfilled with a value or rejected with an error. *)
Inductive outcome (T : Type) : Type :=
| Ok (t : T)
| Err (e : jserror).
Arguments Ok {T} t.
Arguments Err {T} e.

(** What [res.status(n).json(b)] sends. *)
Record response : Type := json {
  status : Z;
  body : jsval
}.

(** What Express hands to a handler: the parsed JSON body and the path
    parameters. *)
Record request : Type := mkRequest {
  req_body : jsobject;
  req_params : jsobject
}.

(** ** Calls to the collaborators *)

(** The calls the handlers make, indexed by the type of the value the call
    resolves to. *)
Inductive call : Type -> Type :=
| GenSalt (rounds : Z) : call string
| Hash (data : jsval) (salt : string) : call string
| Compare (data : jsval) (encrypted : jsval) : call bool
| Query (text : string) (values : list jsval) : call (list jsobject)
| ConsoleError (label : string) (error : jserror) : call unit.

(** A handler body: it returns, throws, or makes a call and goes on with the
    outcome of the call. *)
Inductive prog (A : Type) : Type :=
| Ret (a : A)
| Throw (e : jserror)
| Vis (T : Type) (c : call T) (k : outcome T -> prog A).
Arguments Ret {A} a.
Arguments Throw {A} e.
Arguments Vis {A T} c k.

Fixpoint bind {A B : Type} (p : prog A) (f : A -> prog B) : prog B :=
  match p with
  | Ret a => f a
  | Throw e => Throw e
  | Vis c k => Vis c (fun r => bind (k r) f)
  end.

Declare Scope prog_scope.
Delimit Scope prog_scope with prog.
Notation "x <- p ;; q" := (bind p (fun x => q))
  (at level 61, p at next level, right associativity) : prog_scope.
Notation "p ;; q" := (bind p (fun _ => q))
  (at level 61, right associativity) : prog_scope.
Local Open Scope prog_scope.

(** [await c]: the value of a fulfilled call, a throw for a rejected one. *)
Definition await {T : Type} (c : call T) : prog T :=
  Vis c (fun r => match r with Ok v => Ret v | Err e => Throw e end).

(** [console.error(label, error)] returns nothing and does not throw. *)
Definition console_error (label : string) (error : jserror) : prog unit :=
  Vis (ConsoleError label error) (fun _ => Ret tt).

(** [try { p } catch (error) { h error }]. *)
Fixpoint try_catch {A : Type} (p : prog A) (h : jserror -> prog A) : prog A :=
  match p with
  | Ret a => Ret a
  | Throw e => h e
  | Vis c k => Vis c (fun r => try_catch (k r) h)
  end.

(** [rows[0]]: [undefined] on an empty result. *)
Definition first_row (rows : list jsobject) : jsval :=
  match rows with
  | [] => JUndefined
  | r :: _ => JObj r
  end.

(** [v.k]: a [TypeError] on [undefined] and [null], the own property of a
    plain object, [undefined] on the other values (none of the names read by
    the handlers is defined on a prototype). *)
Definition member (v : jsval) (k : string) : prog jsval :=
  match v with
  | JUndefined =>
      Throw (mkError "TypeError"
               ("Cannot read properties of undefined (reading '" ++ k ++ "')")
               JUndefined)
  | JNull =>
      Throw (mkError "TypeError"
               ("Cannot read properties of null (reading '" ++ k ++ "')")
               JUndefined)
  | JObj o => Ret (prop k o)
  | _ => Ret JUndefined
  end.

(** The three routes both files register. *)
Inductive endpoint : Type :=
| PostRegister
| PostLogin
| GetDocuments.

(** ** The handlers of [src/server.js] *)

Module Server.

(** [app.post('/register', ...)] *)
Definition register (req : request) : prog response :=
  let email := prop "email" (req_body req) in
  let password := prop "password" (req_body req) in
  if negb (truthy email) || negb (truthy password) then
    Ret (json 400 (JObj [("message", JStr "Email and password are required.")]))
  else
    try_catch
      (let saltRounds := 10%Z in
       salt <- await (GenSalt saltRounds) ;;
       passwordHash <- await (Hash password salt) ;;
       result <- await (Query
         "INSERT INTO users (email, password_hash, salt) VALUES ($1, $2, $3) RETURNING id"
         [email; JStr passwordHash; JStr salt]) ;;
       userId <- member (first_row result) "id" ;;
       Ret (json 201 (JObj [("message", JStr "User registered successfully!");
                            ("userId", userId)])))
      (fun error =>
         console_error "Error during registration:" error ;;
         if strict_eq_str (err_code error) "23505" then
           Ret (json 409 (JObj [("message",
                  JStr "Email already exists. Please use a different email.")]))
         else
           Ret (json 500 (JObj [("message",
                  JStr "Internal server error during registration.")]))).

(** [app.post('/login', ...)] *)
Definition login (req : request) : prog response :=
  let email := prop "email" (req_body req) in
  let password := prop "password" (req_body req) in
  if negb (truthy email) || negb (truthy password) then
    Ret (json 400 (JObj [("message", JStr "Email and password are required.")]))
  else
    try_catch
      (result <- await (Query "SELECT * FROM users WHERE email = $1" [email]) ;;
       let user := first_row result in
       if negb (truthy user) then
         Ret (json 401 (JObj [("message", JStr "Invalid email or password.")]))
       else
         password_hash <- member user "password_hash" ;;
         isMatch <- await (Compare password password_hash) ;;
         if (isMatch : bool) then
           Ret (json 200 (JObj [("message", JStr "Login successful!")]))
         else
           Ret (json 401 (JObj [("message", JStr "Invalid email or password.")])))
      (fun error =>
         console_error "Error during login:" error ;;
         Ret (json 500 (JObj [("message",
                JStr "Internal server error during login.")]))).

(** [app.get('/documents/:country/:type', ...)] *)
Definition documents (req : request) : prog response :=
  let country := prop "country" (req_params req) in
  let type := prop "type" (req_params req) in
  try_catch
    (result <- await (Query
       "SELECT * FROM document_details WHERE country = $1 AND document_type = $2"
       [country; type]) ;;
     let document := first_row result in
     if truthy document then
       Ret (json 200 document)
     else
       Ret (json 404 (JObj [("message",
              JStr "Document not found for the specified country and type.")])))
    (fun error =>
       console_error "Error fetching document details:" error ;;
       Ret (json 500 (JObj [("message",
              JStr "Internal server error fetching document details.")]))).

(** The routes registered on [app]. *)
Definition app (ep : endpoint) : request -> prog response :=
  match ep with
  | PostRegister => register
  | PostLogin => login
  | GetDocuments => documents
  end.

End Server.

(** ** The handlers of [src/unnamed/part_000] *)

Module Part000.

(** [app.post('/register', ...)] *)
Definition register (req : request) : prog response :=
  let email := prop "email" (req_body req) in
  let password := prop "password" (req_body req) in
  if negb (truthy email) || negb (truthy password) then
    Ret (json 400 (JObj [("message", JStr "Email and password are required.")]))
  else
    try_catch
      (let saltRounds := 10%Z in
       salt <- await (GenSalt saltRounds) ;;
       passwordHash <- await (Hash password salt) ;;
       result <- await (Query
         "INSERT INTO users (email, password_hash, salt) VALUES ($1, $2, $3) RETURNING id"
         [email; JStr passwordHash; JStr salt]) ;;
       userId <- member (first_row result) "id" ;;
       Ret (json 201 (JObj [("message", JStr "User registered successfully!");
                            ("userId", userId)])))
      (fun error =>
         console_error "Error during registration:" error ;;
         if strict_eq_str (err_code error) "23505" then
           Ret (json 409 (JObj [("message", JStr "Email already exists.")]))
         else
           Ret (json 500 (JObj [("message",
                  JStr "Internal server error during registration.")]))).

(** [app.post('/login', ...)] *)
Definition login (req : request) : prog response :=
  let email := prop "email" (req_body req) in
  let password := prop "password" (req_body req) in
  if negb (truthy email) || negb (truthy password) then
    Ret (json 400 (JObj [("message", JStr "Email and password are required.")]))
  else
    try_catch
      (result <- await (Query "SELECT * FROM users WHERE email = $1" [email]) ;;
       let user := first_row result in
       if negb (truthy user) then
         Ret (json 401 (JObj [("message", JStr "Invalid email or password.")]))
       else
         password_hash <- member user "password_hash" ;;
         isMatch <- await (Compare password password_hash) ;;
         if (isMatch : bool) then
           Ret (json 200 (JObj [("message", JStr "Login successful!")]))
         else
           Ret (json 401 (JObj [("message", JStr "Invalid email or password.")])))
      (fun error =>
         console_error "Error during login:" error ;;
         Ret (json 500 (JObj [("message",
                JStr "Internal server error during login.")]))).

(** [app.get('/documents/:country/:type', ...)] *)
Definition documents (req : request) : prog response :=
  let country := prop "country" (req_params req) in
  let type := prop "type" (req_params req) in
  try_catch
    (result <- await (Query
       "SELECT * FROM document_details WHERE country = $1 AND document_type = $2"
       [country; type]) ;;
     let document := first_row result in
     if truthy document then
       Ret (json 200 document)
     else
       Ret (json 404 (JObj [("message",
              JStr "Document not found for the specified country and type.")])))
    (fun error =>
       console_error "Error fetching document details:" error ;;
       Ret (json 500 (JObj [("message",
              JStr "Internal server error fetching document details.")]))).

(** The routes registered on [app]. *)
Definition app (ep : endpoint) : request -> prog response :=
  match ep with
  | PostRegister => register
  | PostLogin => login
  | GetDocuments => documents
  end.

End Part000.

(** ** Running a handler *)

(** What an observer of a run sees: each call with its outcome. *)
Inductive event : Type :=
| EvGenSalt (rounds : Z) (r : outcome string)
| EvHash (data : jsval) (salt : string) (r : outcome string)
| EvCompare (data : jsval) (encrypted : jsval) (r : outcome bool)
| EvQuery (text : string) (values : list jsval) (r : outcome (list jsobject))
| EvConsoleError (label : string) (error : jserror).

Definition event_of {T : Type} (c : call T) : outcome T -> event :=
  match c in call T return outcome T -> event with
  | GenSalt rounds => EvGenSalt rounds
  | Hash data salt => EvHash data salt
  | Compare data encrypted => EvCompare data encrypted
  | Query text values => EvQuery text values
  | ConsoleError label error => fun _ => EvConsoleError label error
  end.

(** The collaborators, seen from a handler: every call is answered with an
    outcome and a next state of the world [W]. *)
Definition env (W : Type) : Type := forall T : Type, call T -> W -> outcome T * W.

Record run_result (W A : Type) : Type := mkRun {
  result : outcome A;
  final : W;
  trace : list event
}.

(** [result] is [Err e] exactly when [e] leaves the handler uncaught. *)
Fixpoint run {W A : Type} (E : env W) (p : prog A) (w : W) : run_result W A :=
  match p with
  | Ret a => mkRun (Ok a) w []
  | Throw e => mkRun (Err e) w []
  | Vis c k =>
      let rw := E _ c w in
      let r := run E (k (fst rw)) (snd rw) in
      mkRun (result r) (final r) (event_of c (fst rw) :: trace r)
  end.

Definition is_query (ev : event) : bool :=
  match ev with
  | EvQuery _ _ _ => true
  | _ => false
  end.

(** ** A model of the collaborators

    Neither [bcrypt] nor [pg] nor the database is code of this repository.
    What the libraries compute is kept abstract in [externals]; the store
    holds the two tables the statements of the handlers name. *)

Record externals : Type := mkExternals {
  (** [bcrypt.genSalt(rounds)], by the number of salts drawn so far *)
  bcrypt_genSalt : Z -> nat -> outcome string;
  (** [bcrypt.hash(data, salt)] *)
  bcrypt_hash : jsval -> string -> outcome string;
  (** [bcrypt.compare(data, encrypted)] *)
  bcrypt_compare : jsval -> jsval -> outcome bool;
  (** the text [pg] sends for a parameter that is neither null nor a string *)
  to_text : jsval -> string;
  (** the value [pg] returns for the identifier the database assigned *)
  id_value : nat -> jsval;
  (** a failure of the store (connection, timeout, ...) on the n-th query *)
  fault : nat -> option jserror
}.

(** [pg]'s encoding of a query parameter: [null] and [undefined] are NULL,
    a string is sent as it is. *)
Definition prepareValue (X : externals) (v : jsval) : option string :=
  match v with
  | JUndefined | JNull => None
  | JStr s => Some s
  | _ => Some (to_text X v)
  end.

(** Modelled from the spec: the schema of the tables is not in the sources.
    Section 6 of the specification gives [users] the columns [id], [email]
    (unique, enforced by the store), [password_hash] and [salt], and
    [document_details] the columns [country], [document_type] and others. *)
Record user : Type := mkUser {
  user_id : nat;
  user_email : string;
  user_password_hash : string;
  user_salt : string
}.

(** A row of [document_details]: the two key columns and the other columns. *)
Record document_detail : Type := mkDocument {
  doc_country : string;
  doc_document_type : string;
  doc_columns : jsobject
}.

Record world : Type := mkWorld {
  users : list user;
  next_id : nat;
  document_details : list document_detail;
  queries_issued : nat;
  salts_drawn : nat
}.

Definition user_object (X : externals) (u : user) : jsobject :=
  [("id", id_value X (user_id u));
   ("email", JStr (user_email u));
   ("password_hash", JStr (user_password_hash u));
   ("salt", JStr (user_salt u))].

Definition document_object (d : document_detail) : jsobject :=
  ("country", JStr (doc_country d))
  :: ("document_type", JStr (doc_document_type d))
  :: doc_columns d.

Definition pg_error (code message : string) : jserror :=
  mkError "error" message (JStr code).

Definition email_taken (email : string) (us : list user) : bool :=
  existsb (fun u => String.eqb (user_email u) email) us.
Arguments email_taken : simpl never.

(** [INSERT INTO users (email, password_hash, salt) VALUES ($1, $2, $3)
    RETURNING id]: [email] is UNIQUE and a duplicate is refused with SQLSTATE
    23505; the identifier is assigned by the store; the columns are taken to
    be NOT NULL (the handlers never send NULL). *)
Definition insert_user (X : externals) (values : list jsval) (w : world)
  : outcome (list jsobject) * world :=
  match map (prepareValue X) values with
  | [Some email; Some password_hash; Some salt] =>
      if email_taken email (users w) then
        (Err (pg_error "23505"
                "duplicate key value violates unique constraint"), w)
      else
        let u := mkUser (next_id w) email password_hash salt in
        (Ok [[("id", id_value X (user_id u))]],
         mkWorld (users w ++ [u]) (S (next_id w)) (document_details w)
                 (queries_issued w) (salts_drawn w))
  | [_; _; _] =>
      (Err (pg_error "23502" "null value violates not-null constraint"), w)
  | _ =>
      (Err (pg_error "08P01" "bind message supplies the wrong number of parameters"), w)
  end.

(** [SELECT * FROM users WHERE email = $1]: a NULL parameter matches no row. *)
Definition select_user (X : externals) (values : list jsval) (w : world)
  : outcome (list jsobject) * world :=
  match map (prepareValue X) values with
  | [Some email] =>
      (Ok (map (user_object X)
             (filter (fun u => String.eqb (user_email u) email) (users w))), w)
  | [None] => (Ok [], w)
  | _ =>
      (Err (pg_error "08P01" "bind message supplies the wrong number of parameters"), w)
  end.

(** [SELECT * FROM document_details WHERE country = $1 AND document_type = $2] *)
Definition select_document (X : externals) (values : list jsval) (w : world)
  : outcome (list jsobject) * world :=
  match map (prepareValue X) values with
  | [Some country; Some type] =>
      (Ok (map document_object
             (filter (fun d => String.eqb (doc_country d) country
                               && String.eqb (doc_document_type d) type)
                     (document_details w))), w)
  | [_; _] => (Ok [], w)
  | _ =>
      (Err (pg_error "08P01" "bind message supplies the wrong number of parameters"), w)
  end.

(** The statements the store is asked to execute, by their text. *)
Definition execute (X : externals) (text : string) (values : list jsval) (w : world)
  : outcome (list jsobject) * world :=
  if String.eqb text
       "INSERT INTO users (email, password_hash, salt) VALUES ($1, $2, $3) RETURNING id"
  then insert_user X values w
  else if String.eqb text "SELECT * FROM users WHERE email = $1"
  then select_user X values w
  else if String.eqb text
       "SELECT * FROM document_details WHERE country = $1 AND document_type = $2"
  then select_document X values w
  else (Err (pg_error "42601" "syntax error"), w).

Definition count_query (w : world) : world :=
  mkWorld (users w) (next_id w) (document_details w)
          (S (queries_issued w)) (salts_drawn w).

Definition count_salt (w : world) : world :=
  mkWorld (users w) (next_id w) (document_details w)
          (queries_issued w) (S (salts_drawn w)).

(** [pool.query(text, values)]: the store fails, or executes the statement. *)
Definition pool_query (X : externals) (text : string) (values : list jsval) (w : world)
  : outcome (list jsobject) * world :=
  match fault X (queries_issued w) with
  | Some e => (Err e, count_query w)
  | None => execute X text values (count_query w)
  end.

(** The world answering the calls of a handler. *)
Definition backend (X : externals) : env world :=
  fun T c =>
    match c in call T return world -> outcome T * world with
    | GenSalt rounds => fun w => (bcrypt_genSalt X rounds (salts_drawn w), count_salt w)
    | Hash data salt => fun w => (bcrypt_hash X data salt, w)
    | Compare data encrypted => fun w => (bcrypt_compare X data encrypted, w)
    | Query text values => pool_query X text values
    | ConsoleError _ _ => fun w => (Ok tt, w)
    end.

(** One request served by an application. *)
Definition serve (X : externals) (app : endpoint -> request -> prog response)
    (r : endpoint * request) (w : world) : run_result world response :=
  run (backend X) (app (fst r) (snd r)) w.

(** A sequence of requests served one after the other. *)
Fixpoint serve_all (X : externals) (app : endpoint -> request -> prog response)
    (rs : list (endpoint * request)) (w : world) : world :=
  match rs with
  | [] => w
  | r :: rest => serve_all X app rest (final (serve X app r w))
  end.

(** ** A small instance of the collaborators, to run the handlers on *)

Module Toy.

Definition not_a_string : jserror :=
  mkError "Error" "data must be a string or Buffer" JUndefined.

Fixpoint salt_number (n : nat) : string :=
  match n with
  | O => "$"
  | S m => String "s" (salt_number m)
  end.

Definition genSalt (rounds : Z) (n : nat) : outcome string :=
  Ok ("$2b$10" ++ salt_number n)%string.

Definition hash (data : jsval) (salt : string) : outcome string :=
  match data with
  | JStr p => Ok (p ++ salt)%string
  | _ => Err not_a_string
  end.

Definition compare (data encrypted : jsval) : outcome bool :=
  match data, encrypted with
  | JStr p, JStr h => Ok (String.prefix p h)
  | _, _ => Err not_a_string
  end.

Definition id_number (n : nat) : jsval :=
  JNum (binary_normalize 53 1024 (Z.of_nat n) 0 false).

(** A store that never fails. *)
Definition sound : externals :=
  mkExternals genSalt hash compare (fun _ => "[object Object]") id_number
              (fun _ => None).

Definition connection_refused : jserror :=
  mkError "Error" "connect ECONNREFUSED" (JStr "ECONNREFUSED").

(** A store that fails on its n-th query and on no other. *)
Definition failing_at (n : nat) : externals :=
  mkExternals genSalt hash compare (fun _ => "[object Object]") id_number
              (fun i => if Nat.eqb i n then Some connection_refused else None).

Definition empty : world := mkWorld [] 1 [] 0 0.

Definition credentials (email password : string) : request :=
  mkRequest [("email", JStr email); ("password", JStr password)] [].

Definition path (country type : string) : request :=
  mkRequest [] [("country", JStr country); ("type", JStr type)].

(** The world after a@x.com has registered with the password secret. *)
Definition registered : world :=
  final (serve sound Server.app (PostRegister, credentials "a@x.com" "secret") empty).

Definition us_passport : document_detail :=
  mkDocument "US" "passport" [("validity_years", JStr "10")].

Definition library : world := mkWorld [] 1 [us_passport] 0 0.

End Toy.

(** ** Vocabulary of the statements *)

(** The two source files. *)
Inductive file : Type :=
| ServerJs
| Part000File.

Definition app_of (f : file) : endpoint -> request -> prog response :=
  match f with
  | ServerJs => Server.app
  | Part000File => Part000.app
  end.

(** The message each file sends with status 409. *)
Definition conflict_message (f : file) : string :=
  match f with
  | ServerJs => "Email already exists. Please use a different email."
  | Part000File => "Email already exists."
  end.

(** What a handler may answer once a query has failed: the conflict message
    of the file, or one of the three fixed 500 messages. *)
Definition failure_response (f : file) (res : response) : Prop :=
  res = json 409 (JObj [("message", JStr (conflict_message f))])
  \/ res = json 500 (JObj [("message", JStr "Internal server error during registration.")])
  \/ res = json 500 (JObj [("message", JStr "Internal server error during login.")])
  \/ res = json 500 (JObj [("message",
             JStr "Internal server error fetching document details.")]).

(** An object without its property [k]. *)
Definition without (k : string) (o : jsobject) : jsobject :=
  filter (fun kv => negb (String.eqb (fst kv) k)) o.

(** Two stored rows that differ at most in the [salt] column. *)
Definition same_but_salt (u v : user) : Prop :=
  user_id u = user_id v
  /\ user_email u = user_email v
  /\ user_password_hash u = user_password_hash v.

(** ** The connection test at start-up

    Both files test the pool once when the module is loaded, in callback
    style: [pool.connect(callback)], and inside it
    [client.query('SELECT NOW()', callback)]. *)

(** [v.k] as a value: what [member] returns or throws. *)
Definition read (v : jsval) (k : string) : outcome jsval :=
  match v with
  | JUndefined =>
      Err (mkError "TypeError"
             ("Cannot read properties of undefined (reading '" ++ k ++ "')")
             JUndefined)
  | JNull =>
      Err (mkError "TypeError"
             ("Cannot read properties of null (reading '" ++ k ++ "')")
             JUndefined)
  | JObj o => Ok (prop k o)
  | _ => Ok JUndefined
  end.

(** A start-up script: it ends, lets an error escape, or takes one of the
    steps of the connection test.  The callbacks receive [err] as a value,
    [undefined] or [null] when there is none. *)
Inductive startup (A : Type) : Type :=
| Done (a : A)
| Uncaught (e : jserror)
| PoolConnect (callback : jsval -> startup A)
| ClientQuery (text : string) (callback : jsval -> list jsobject -> startup A)
| Release (next : startup A)
| LogError (label : string) (arg : jsval) (next : startup A)
| LogInfo (label : string) (arg : jsval) (next : startup A).
Arguments Done {A} a.
Arguments Uncaught {A} e.
Arguments PoolConnect {A} callback.
Arguments ClientQuery {A} text callback.
Arguments Release {A} next.
Arguments LogError {A} label arg next.
Arguments LogInfo {A} label arg next.

(** An expression that may throw, then the statements after it. *)
Definition eval {A : Type} (r : outcome jsval) (next : jsval -> startup A) : startup A :=
  match r with
  | Ok v => next v
  | Err e => Uncaught e
  end.

(** [pool.connect((err, client, release) => ...)] of [src/server.js]. *)
Definition server_connection_test : startup unit :=
  PoolConnect (fun err =>
    if truthy err then
      eval (read err "stack") (fun stack =>
      LogError "Error acquiring client from pool:" stack (Done tt))
    else
      ClientQuery "SELECT NOW()" (fun err rows =>
        Release
          (if truthy err then
             eval (read err "stack") (fun stack =>
             LogError "Error executing test query:" stack (Done tt))
           else
             eval (read (first_row rows) "now") (fun now =>
             LogInfo "Successfully connected to PostgreSQL on Render:" now (Done tt))))).

(** [pool.connect((err, client, release) => ...)] of [src/unnamed/part_000]. *)
Definition part000_connection_test : startup unit :=
  PoolConnect (fun err =>
    if truthy err then
      eval (read err "stack") (fun stack =>
      LogError "Error acquiring client" stack (Done tt))
    else
      ClientQuery "SELECT NOW()" (fun err rows =>
        Release
          (if truthy err then
             eval (read err "stack") (fun stack =>
             LogError "Error executing query" stack (Done tt))
           else
             eval (read (first_row rows) "now") (fun now =>
             LogInfo "Successfully connected to PostgreSQL:" now (Done tt))))).

Definition connection_test (f : file) : startup unit :=
  match f with
  | ServerJs => server_connection_test
  | Part000File => part000_connection_test
  end.

(** What the pool answers at start-up: the [err] of the connection, and the
    [err] and the rows of a query on the client. *)
Record pool_answers : Type := mkAnswers {
  connect_err : jsval;
  query_err : string -> jsval;
  query_rows : string -> list jsobject
}.

Inductive startup_event : Type :=
| SConnected (err : jsval)
| SQueried (text : string) (err : jsval) (rows : list jsobject)
| SReleased
| SLoggedError (label : string) (arg : jsval)
| SLoggedInfo (label : string) (arg : jsval).

Fixpoint run_startup {A : Type} (P : pool_answers) (s : startup A)
  : list startup_event * outcome A :=
  match s with
  | Done a => ([], Ok a)
  | Uncaught e => ([], Err e)
  | PoolConnect callback =>
      let r := run_startup P (callback (connect_err P)) in
      (SConnected (connect_err P) :: fst r, snd r)
  | ClientQuery text callback =>
      let r := run_startup P (callback (query_err P text) (query_rows P text)) in
      (SQueried text (query_err P text) (query_rows P text) :: fst r, snd r)
  | Release next =>
      let r := run_startup P next in (SReleased :: fst r, snd r)
  | LogError label arg next =>
      let r := run_startup P next in (SLoggedError label arg :: fst r, snd r)
  | LogInfo label arg next =>
      let r := run_startup P next in (SLoggedInfo label arg :: fst r, snd r)
  end.

Definition is_release (ev : startup_event) : bool :=
  match ev with
  | SReleased => true
  | _ => false
  end.

(** An event without the text of its label. *)
Definition unlabel (ev : startup_event) : startup_event :=
  match ev with
  | SLoggedError _ arg => SLoggedError EmptyString arg
  | SLoggedInfo _ arg => SLoggedInfo EmptyString arg
  | _ => ev
  end.

(** ** More vocabulary *)

(** The error a rejected call was rejected with. *)
Definition rejection (ev : event) : option jserror :=
  match ev with
  | EvGenSalt _ (Err e) | EvHash _ _ (Err e) | EvCompare _ _ (Err e)
  | EvQuery _ _ (Err e) => Some e
  | _ => None
  end.

Definition is_console_error (ev : event) : bool :=
  match ev with
  | EvConsoleError _ _ => true
  | _ => false
  end.

Definition is_hashing (ev : event) : bool :=
  match ev with
  | EvGenSalt _ _ | EvHash _ _ _ => true
  | _ => false
  end.

Definition is_compare (ev : event) : bool :=
  match ev with
  | EvCompare _ _ _ => true
  | _ => false
  end.

(** The label each handler logs a caught error under. *)
Definition error_label (ep : endpoint) : string :=
  match ep with
  | PostRegister => "Error during registration:"
  | PostLogin => "Error during login:"
  | GetDocuments => "Error fetching document details:"
  end.

(** The statuses each handler sends. *)
Definition statuses (ep : endpoint) : list Z :=
  match ep with
  | PostRegister => [201; 400; 409; 500]%Z
  | PostLogin => [200; 400; 401; 500]%Z
  | GetDocuments => [200; 404; 500]%Z
  end.

(** * Properties *)

(** ** Proof steps shared by the handler lemmas *)

(** Case analysis on the answer of the environment to the next call. *)
Ltac answer E :=
  match goal with
  | |- context [E ?T ?c ?w] =>
      let v := fresh "v" in
      let e := fresh "e" in
      let w' := fresh "w" in
      let Hc := fresh "Hcall" in
      destruct (E T c w) as [[v | e] w'] eqn:Hc; cbn
  end.

Ltac answers E := cbn; repeat answer E.

Lemma falsy_guard (email password : jsval) :
  truthy email = false \/ truthy password = false ->
  negb (truthy email) || negb (truthy password) = true.
Proof.
  intros [H | H]; rewrite H; cbn; auto using orb_true_r.
Qed.

Lemma truthy_guard (email password : jsval) :
  truthy email = true -> truthy password = true ->
  negb (truthy email) || negb (truthy password) = false.
Proof.
  intros H1 H2; rewrite H1, H2; reflexivity.
Qed.

(** The login and lookup handlers of the two files are the same programs. *)
Lemma login_same : Part000.login = Server.login.
Proof. reflexivity. Qed.

Lemma documents_same : Part000.documents = Server.documents.
Proof. reflexivity. Qed.

(** ** Validation *)

(** C2: when [email] or [password] is missing or falsy in the body, register
    and login (of both files) answer 400 'Email and password are required.',
    make no call at all (the trace is empty, so no query is issued) and leave
    the world as it was, whatever the collaborators are. *)
Theorem missing_field_is_400_without_query :
  forall (W : Type) (E : env W) (w : W) (req : request),
    truthy (prop "email" (req_body req)) = false
    \/ truthy (prop "password" (req_body req)) = false ->
    let rejected :=
      mkRun (Ok (json 400 (JObj [("message", JStr "Email and password are required.")])))
            w [] in
    run E (Server.register req) w = rejected
    /\ run E (Server.login req) w = rejected
    /\ run E (Part000.register req) w = rejected
    /\ run E (Part000.login req) w = rejected.
Proof.
  intros W E w req H; cbn zeta.
  apply falsy_guard in H.
  unfold Server.register, Server.login, Part000.register, Part000.login.
  cbn zeta; rewrite H; cbn; auto.
Qed.

Lemma missing_field_is_400_without_query_witness :
  let req := mkRequest [("email", JStr "a@x.com"); ("password", JStr EmptyString)] [] in
  let rejected :=
    mkRun (Ok (json 400 (JObj [("message", JStr "Email and password are required.")])))
          Toy.empty [] in
  run (backend Toy.sound) (Server.register req) Toy.empty = rejected
  /\ run (backend Toy.sound) (Server.login req) Toy.empty = rejected
  /\ run (backend Toy.sound) (Part000.register req) Toy.empty = rejected
  /\ run (backend Toy.sound) (Part000.login req) Toy.empty = rejected.
Proof.
  apply (@missing_field_is_400_without_query world (backend Toy.sound) Toy.empty
           (mkRequest [("email", JStr "a@x.com"); ("password", JStr EmptyString)] [])).
  right; reflexivity.
Defined.

(** ** Login *)

Lemma login_not_found (W : Type) (E : env W) (w w' : W) (req : request) :
  truthy (prop "email" (req_body req)) = true ->
  truthy (prop "password" (req_body req)) = true ->
  E _ (Query "SELECT * FROM users WHERE email = $1" [prop "email" (req_body req)]) w
    = (Ok [], w') ->
  run E (Server.login req) w
  = mkRun (Ok (json 401 (JObj [("message", JStr "Invalid email or password.")]))) w'
      [EvQuery "SELECT * FROM users WHERE email = $1" [prop "email" (req_body req)]
         (Ok [])].
Proof.
  intros He Hp Hq. unfold Server.login; cbn zeta.
  rewrite (truthy_guard _ _ He Hp). cbn. rewrite Hq. reflexivity.
Qed.

Lemma login_found (W : Type) (E : env W) (w w1 w2 : W) (req : request)
    (user : jsobject) (others : list jsobject) (isMatch : bool) :
  truthy (prop "email" (req_body req)) = true ->
  truthy (prop "password" (req_body req)) = true ->
  E _ (Query "SELECT * FROM users WHERE email = $1" [prop "email" (req_body req)]) w
    = (Ok (user :: others), w1) ->
  E _ (Compare (prop "password" (req_body req)) (prop "password_hash" user)) w1
    = (Ok isMatch, w2) ->
  run E (Server.login req) w
  = mkRun (Ok (if isMatch
               then json 200 (JObj [("message", JStr "Login successful!")])
               else json 401 (JObj [("message", JStr "Invalid email or password.")])))
      w2
      [EvQuery "SELECT * FROM users WHERE email = $1" [prop "email" (req_body req)]
         (Ok (user :: others));
       EvCompare (prop "password" (req_body req)) (prop "password_hash" user)
         (Ok isMatch)].
Proof.
  intros He Hp Hq Hc. unfold Server.login; cbn zeta.
  rewrite (truthy_guard _ _ He Hp). cbn. rewrite Hq. cbn. rewrite Hc.
  destruct isMatch; reflexivity.
Qed.

(** C1: a login whose email matches no stored user and a login whose user is
    found but whose password fails the bcrypt comparison get the same
    response, 401 with the message 'Invalid email or password.', in both
    files and whatever the collaborators are. *)
Theorem login_failures_indistinguishable :
  forall (W1 W2 : Type) (E1 : env W1) (E2 : env W2) (w1 w1' : W1) (w2 w2' w2'' : W2)
         (req1 req2 : request) (user : jsobject) (others : list jsobject),
    truthy (prop "email" (req_body req1)) = true ->
    truthy (prop "password" (req_body req1)) = true ->
    truthy (prop "email" (req_body req2)) = true ->
    truthy (prop "password" (req_body req2)) = true ->
    E1 _ (Query "SELECT * FROM users WHERE email = $1" [prop "email" (req_body req1)]) w1
      = (Ok [], w1') ->
    E2 _ (Query "SELECT * FROM users WHERE email = $1" [prop "email" (req_body req2)]) w2
      = (Ok (user :: others), w2') ->
    E2 _ (Compare (prop "password" (req_body req2)) (prop "password_hash" user)) w2'
      = (Ok false, w2'') ->
    let invalid := Ok (json 401 (JObj [("message", JStr "Invalid email or password.")])) in
    result (run E1 (Server.login req1) w1) = invalid
    /\ result (run E2 (Server.login req2) w2) = invalid
    /\ result (run E1 (Part000.login req1) w1) = invalid
    /\ result (run E2 (Part000.login req2) w2) = invalid.
Proof.
  intros W1 W2 E1 E2 w1 w1' w2 w2' w2'' req1 req2 user others
         He1 Hp1 He2 Hp2 Hq1 Hq2 Hc2; cbn zeta.
  rewrite login_same.
  rewrite (@login_not_found _ E1 _ _ req1 He1 Hp1 Hq1).
  rewrite (@login_found _ E2 _ _ _ req2 _ _ _ He2 Hp2 Hq2 Hc2).
  cbn; auto.
Qed.

Lemma login_failures_indistinguishable_witness :
  let invalid := Ok (json 401 (JObj [("message", JStr "Invalid email or password.")])) in
  result (run (backend Toy.sound) (Server.login (Toy.credentials "b@x.com" "secret"))
              Toy.empty) = invalid
  /\ result (run (backend Toy.sound) (Server.login (Toy.credentials "a@x.com" "wrong"))
                 Toy.registered) = invalid
  /\ result (run (backend Toy.sound) (Part000.login (Toy.credentials "b@x.com" "secret"))
                 Toy.empty) = invalid
  /\ result (run (backend Toy.sound) (Part000.login (Toy.credentials "a@x.com" "wrong"))
                 Toy.registered) = invalid.
Proof.
  eapply (@login_failures_indistinguishable world world
            (backend Toy.sound) (backend Toy.sound) Toy.empty _ Toy.registered _ _
            (Toy.credentials "b@x.com" "secret") (Toy.credentials "a@x.com" "wrong"));
    reflexivity.
Defined.

(** ** Document lookup *)

(** C8: when the exact-match query of the lookup returns no row the response
    is 404 'Document not found for the specified country and type.'; when it
    returns one or more rows the response is 200 and its body is the first
    returned row (both files, whatever the collaborators are). *)
Theorem documents_first_row_or_404 :
  forall (W : Type) (E : env W) (w w' : W) (req : request) (rows : list jsobject),
    E _ (Query "SELECT * FROM document_details WHERE country = $1 AND document_type = $2"
           [prop "country" (req_params req); prop "type" (req_params req)]) w
      = (Ok rows, w') ->
    let expected :=
      Ok (match rows with
          | [] => json 404 (JObj [("message",
                    JStr "Document not found for the specified country and type.")])
          | document :: _ => json 200 (JObj document)
          end) in
    result (run E (Server.documents req) w) = expected
    /\ result (run E (Part000.documents req) w) = expected.
Proof.
  intros W E w w' req rows Hq; cbn zeta.
  rewrite documents_same. unfold Server.documents; cbn.
  rewrite Hq. destruct rows; cbn; auto.
Qed.

Lemma documents_first_row_or_404_witness :
  let found := Ok (json 200 (JObj (document_object Toy.us_passport))) in
  result (run (backend Toy.sound) (Server.documents (Toy.path "US" "passport"))
              Toy.library) = found
  /\ result (run (backend Toy.sound) (Part000.documents (Toy.path "US" "passport"))
                 Toy.library) = found.
Proof.
  eapply (@documents_first_row_or_404 world (backend Toy.sound) Toy.library _
            (Toy.path "US" "passport") [document_object Toy.us_passport]).
  reflexivity.
Defined.

(** ** Error handling *)

Ltac split_guard :=
  match goal with
  | |- context [negb (truthy ?a) || negb (truthy ?b)] =>
      let Hemail := fresh "Hemail" in
      let Hpassword := fresh "Hpassword" in
      destruct (truthy a) eqn:Hemail;
      [ destruct (truthy b) eqn:Hpassword | ];
      cbn [negb orb]
  end.

Ltac handler_cases E :=
  cbn;
  repeat first
    [ answer E
    | match goal with
      | |- context [first_row ?rows] => is_var rows; destruct rows; cbn
      | |- context [strict_eq_str ?a ?b] => destruct (strict_eq_str a b) eqn:?; cbn
      | |- context [if ?b then _ else _] => is_var b; destruct b; cbn
      end ].

Ltac failed_query H :=
  cbn in H;
  repeat match type of H with
         | _ \/ _ => destruct H as [H | H]
         | False => contradiction
         | _ = _ => first [discriminate H | inversion H; subst; clear H]
         end.

(** C7: on each of the three endpoints, of both files and whatever the
    collaborators do, the handler ends with a response (no error leaves it
    uncaught) whose status is one of 200, 201, 400, 401, 404, 409, 500; and
    when a query has failed the response is the 409 conflict message or one
    of the fixed 500 messages, which carry nothing of the error. *)
Theorem every_failure_becomes_a_response :
  forall (W : Type) (E : env W) (w : W) (f : file) (ep : endpoint) (req : request),
    exists res,
      result (run E (app_of f ep req) w) = Ok res
      /\ In (status res) [200; 201; 400; 401; 404; 409; 500]%Z
      /\ forall text values e,
           In (EvQuery text values (Err e)) (trace (run E (app_of f ep req) w)) ->
           failure_response f res.
Proof.
  intros W E w f ep req.
  destruct f, ep; cbn [app_of Server.app Part000.app];
    unfold Server.register, Server.login, Server.documents,
           Part000.register, Part000.login, Part000.documents; cbn zeta;
    try split_guard; handler_cases E;
    (eexists; split; [reflexivity | split; [cbn; auto 10 |]]);
    intros text values e' Hin; failed_query Hin;
    unfold failure_response; cbn; auto.
Qed.

Lemma every_failure_becomes_a_response_witness :
  exists res,
    result (run (backend (Toy.failing_at 1)) (app_of ServerJs PostLogin
              (Toy.credentials "a@x.com" "secret")) Toy.registered) = Ok res
    /\ In (status res) [200; 201; 400; 401; 404; 409; 500]%Z
    /\ forall text values e,
         In (EvQuery text values (Err e))
            (trace (run (backend (Toy.failing_at 1)) (app_of ServerJs PostLogin
                      (Toy.credentials "a@x.com" "secret")) Toy.registered)) ->
         failure_response ServerJs res.
Proof.
  exact (every_failure_becomes_a_response (backend (Toy.failing_at 1)) Toy.registered
           ServerJs PostLogin (Toy.credentials "a@x.com" "secret")).
Defined.

(** ** The two files *)

(** C10: the two files behave alike.  Their login handlers and their lookup
    handlers make the same run (same response, status and body, same calls,
    same final world); their register handlers make the same calls, reach
    the same world and answer with the same status, and with the same body
    unless the status is 409, where [src/server.js] says 'Email already
    exists. Please use a different email.' and [src/unnamed/part_000] says
    'Email already exists.'. *)
Theorem files_agree :
  forall (W : Type) (E : env W) (w : W) (req : request),
    run E (Part000.login req) w = run E (Server.login req) w
    /\ run E (Part000.documents req) w = run E (Server.documents req) w
    /\ final (run E (Part000.register req) w) = final (run E (Server.register req) w)
    /\ trace (run E (Part000.register req) w) = trace (run E (Server.register req) w)
    /\ exists a b,
         result (run E (Server.register req) w) = Ok a
         /\ result (run E (Part000.register req) w) = Ok b
         /\ status a = status b
         /\ (status a <> 409%Z /\ body a = body b
             \/ status a = 409%Z
                /\ body a = JObj [("message",
                              JStr "Email already exists. Please use a different email.")]
                /\ body b = JObj [("message", JStr "Email already exists.")]).
Proof.
  intros W E w req.
  rewrite login_same, documents_same.
  do 2 (split; [reflexivity |]).
  unfold Server.register, Part000.register; cbn zeta.
  split_guard; handler_cases E;
    (split; [reflexivity | split; [reflexivity |]]);
    do 2 eexists; (split; [reflexivity | split; [reflexivity | split; [reflexivity |]]]);
    cbn; first [ left; split; [discriminate | reflexivity]
               | right; split; [reflexivity | split; reflexivity] ].
Qed.

(** ** Registration against the store *)

Ltac store_step :=
  match goal with
  | |- context [bcrypt_genSalt ?X ?r ?n] =>
      destruct (bcrypt_genSalt X r n) as [?salt | ?e] eqn:?Hsalt
  | |- context [bcrypt_hash ?X ?d ?s] =>
      destruct (bcrypt_hash X d s) as [?h | ?e] eqn:?Hhash
  | |- context [bcrypt_compare ?X ?d ?h] =>
      destruct (bcrypt_compare X d h) as [[|] | ?e] eqn:?Hcompare
  | |- context [fault ?X ?n] =>
      destruct (fault X n) as [?e | ] eqn:?Hfault
  | |- context [prepareValue ?X ?v] =>
      destruct (prepareValue X v) as [?s | ] eqn:?Hvalue
  | |- context [email_taken ?a ?us] =>
      destruct (email_taken a us) eqn:?Htaken
  | |- context [strict_eq_str ?a ?b] =>
      destruct (strict_eq_str a b) eqn:?Hcode
  end.

Ltac store_cases :=
  repeat (cbn; unfold pool_query, execute, insert_user, select_user, select_document;
          cbn; try store_step).

(** The world a successful insert leads to. *)
Lemma register_on_store (X : externals) (f : file) (w : world) (req : request) :
  let r := serve X (app_of f) (PostRegister, req) w in
  (users (final r) = users w
   /\ (forall res, result r = Ok res -> status res <> 201%Z)
   /\ (forall text values rows, ~ In (EvQuery text values (Ok rows)) (trace r)))
  \/ (exists salt password_hash email,
         truthy (prop "email" (req_body req)) = true
         /\ truthy (prop "password" (req_body req)) = true
         /\ bcrypt_genSalt X 10 (salts_drawn w) = Ok salt
         /\ bcrypt_hash X (prop "password" (req_body req)) salt = Ok password_hash
         /\ prepareValue X (prop "email" (req_body req)) = Some email
         /\ fault X (queries_issued w) = None
         /\ email_taken email (users w) = false
         /\ final r = mkWorld (users w ++ [mkUser (next_id w) email password_hash salt])
                        (S (next_id w)) (document_details w)
                        (S (queries_issued w)) (S (salts_drawn w))
         /\ result r = Ok (json 201 (JObj [("message", JStr "User registered successfully!");
                                           ("userId", id_value X (next_id w))]))
         /\ trace r =
            [EvGenSalt 10 (Ok salt);
             EvHash (prop "password" (req_body req)) salt (Ok password_hash);
             EvQuery
               "INSERT INTO users (email, password_hash, salt) VALUES ($1, $2, $3) RETURNING id"
               [prop "email" (req_body req); JStr password_hash; JStr salt]
               (Ok [[("id", id_value X (next_id w))]])]).
Proof.
  cbn zeta. unfold serve; cbn [fst snd].
  destruct f; cbn [app_of Server.app Part000.app];
    unfold Server.register, Part000.register; cbn zeta;
    (split_guard; store_cases);
    first
      [ left; split; [reflexivity |];
        split;
        [ intros res Hres; inversion Hres; cbn; discriminate
        | intros text values rows Hin; failed_query Hin ]
      | right; do 3 eexists; repeat split; first [reflexivity | eassumption] ].
Qed.

(** Login and lookup hand the world back with one more query counted at
    most. *)
Lemma reads_leave_store (X : externals) (f : file) (w : world) (req : request) :
  (final (serve X (app_of f) (PostLogin, req) w) = w
   \/ final (serve X (app_of f) (PostLogin, req) w) = count_query w)
  /\ (final (serve X (app_of f) (GetDocuments, req) w) = w
      \/ final (serve X (app_of f) (GetDocuments, req) w) = count_query w).
Proof.
  unfold serve; cbn [fst snd].
  split; destruct f; cbn [app_of Server.app Part000.app];
    unfold Server.login, Part000.login, Server.documents, Part000.documents; cbn zeta;
    try split_guard; store_cases;
    repeat match goal with
           | |- context [filter ?p ?l] => destruct (filter p l); cbn
           end;
    store_cases; auto.
Qed.

(** A request adds at most one row, after all the others, and only with an
    email no stored row has. *)
Lemma serve_extends (X : externals) (f : file) (r : endpoint * request) (w : world) :
  users (final (serve X (app_of f) r w)) = users w
  \/ exists u,
       users (final (serve X (app_of f) r w)) = users w ++ [u]
       /\ email_taken (user_email u) (users w) = false.
Proof.
  destruct r as [[ | | ] req].
  - destruct (register_on_store X f w req) as [(Hu & _) | (salt & h & email & H)].
    + left; exact Hu.
    + right. exists (mkUser (next_id w) email h salt).
      destruct H as (_ & _ & _ & _ & _ & _ & Ht & Hf & _).
      rewrite Hf; cbn; auto.
  - left. destruct (reads_leave_store X f w req) as [[H | H] _]; rewrite H; reflexivity.
  - left. destruct (reads_leave_store X f w req) as [_ [H | H]]; rewrite H; reflexivity.
Qed.

Lemma serve_all_extends (X : externals) (f : file) (rs : list (endpoint * request)) :
  forall w, exists added, users (serve_all X (app_of f) rs w) = users w ++ added.
Proof.
  induction rs as [| r rs IH]; intros w; cbn [serve_all].
  - exists []. now rewrite app_nil_r.
  - destruct (IH (final (serve X (app_of f) r w))) as [added Ha].
    destruct (serve_extends X f r w) as [Hu | (u & Hu & _)]; rewrite Ha, Hu.
    + now exists added.
    + exists (u :: added). now rewrite <- app_assoc.
Qed.

Lemma filter_taken_stable (email : string) (us : list user) (u : user) :
  email_taken email us = true ->
  email_taken (user_email u) us = false ->
  filter (fun v => String.eqb (user_email v) email) (us ++ [u])
  = filter (fun v => String.eqb (user_email v) email) us.
Proof.
  intros Ht Hf. rewrite filter_app; cbn.
  destruct (String.eqb (user_email u) email) eqn:He.
  - apply String.eqb_eq in He. rewrite He in Hf. congruence.
  - apply app_nil_r.
Qed.

Lemma filter_taken (email : string) (us : list user) :
  filter (fun v => String.eqb (user_email v) email) us <> [] ->
  email_taken email us = true.
Proof.
  unfold email_taken. induction us as [| u us IH]; cbn.
  - congruence.
  - destruct (String.eqb (user_email u) email); cbn; auto.
Qed.

Lemma filter_not_taken (email : string) (us : list user) :
  email_taken email us = false ->
  filter (fun v => String.eqb (user_email v) email) us = [].
Proof.
  unfold email_taken. induction us as [| u us IH]; cbn.
  - reflexivity.
  - destruct (String.eqb (user_email u) email); cbn; [discriminate | exact IH].
Qed.

(** Once an email is stored, the rows it selects stay the same. *)
Lemma selected_rows_stable (X : externals) (f : file) (email : string)
    (rs : list (endpoint * request)) :
  forall w,
    filter (fun v => String.eqb (user_email v) email) (users w) <> [] ->
    filter (fun v => String.eqb (user_email v) email) (users (serve_all X (app_of f) rs w))
    = filter (fun v => String.eqb (user_email v) email) (users w).
Proof.
  induction rs as [| r rs IH]; intros w Hne; cbn [serve_all].
  - reflexivity.
  - assert (Hstep :
      filter (fun v => String.eqb (user_email v) email)
             (users (final (serve X (app_of f) r w)))
      = filter (fun v => String.eqb (user_email v) email) (users w)).
    { destruct (serve_extends X f r w) as [Hu | (u & Hu & Hf)]; rewrite Hu.
      - reflexivity.
      - apply filter_taken_stable; [apply filter_taken; exact Hne | exact Hf]. }
    rewrite IH; [exact Hstep | rewrite Hstep; exact Hne].
Qed.

(** C4 (as amended): when the insert of a registration fails with error code
    '23505' the response is 409, with the message 'Email already exists.
    Please use a different email.' in [src/server.js] and 'Email already
    exists.' in [src/unnamed/part_000]; when it fails with any other code
    (or none) the response is 500; and against the store no row is added by
    a registration whose insert fails. *)
Theorem insert_failure_is_409_or_500 :
  (forall (W : Type) (E : env W) (w : W) (req : request)
          (text : string) (values : list jsval) (e : jserror),
      In (EvQuery text values (Err e)) (trace (run E (Server.register req) w)) ->
      result (run E (Server.register req) w)
      = Ok (if strict_eq_str (err_code e) "23505"
            then json 409 (JObj [("message",
                   JStr "Email already exists. Please use a different email.")])
            else json 500 (JObj [("message",
                   JStr "Internal server error during registration.")])))
  /\ (forall (W : Type) (E : env W) (w : W) (req : request)
             (text : string) (values : list jsval) (e : jserror),
      In (EvQuery text values (Err e)) (trace (run E (Part000.register req) w)) ->
      result (run E (Part000.register req) w)
      = Ok (if strict_eq_str (err_code e) "23505"
            then json 409 (JObj [("message", JStr "Email already exists.")])
            else json 500 (JObj [("message",
                   JStr "Internal server error during registration.")])))
  /\ (forall (X : externals) (f : file) (w : world) (req : request)
             (text : string) (values : list jsval) (e : jserror),
      In (EvQuery text values (Err e))
         (trace (serve X (app_of f) (PostRegister, req) w)) ->
      users (final (serve X (app_of f) (PostRegister, req) w)) = users w).
Proof.
  split; [| split].
  - intros W E w req.
    unfold Server.register; cbn zeta. split_guard; handler_cases E;
      intros text values e' Hin; failed_query Hin;
      repeat match goal with H : strict_eq_str _ _ = _ |- _ => rewrite H end;
      reflexivity.
  - intros W E w req.
    unfold Part000.register; cbn zeta. split_guard; handler_cases E;
      intros text values e' Hin; failed_query Hin;
      repeat match goal with H : strict_eq_str _ _ = _ |- _ => rewrite H end;
      reflexivity.
  - intros X f w req text values e Hin.
    destruct (register_on_store X f w req) as [(Hu & _) | (salt & h & email & H)].
    + exact Hu.
    + destruct H as (_ & _ & _ & _ & _ & _ & _ & _ & _ & Ht).
      rewrite Ht in Hin. failed_query Hin.
Qed.

Lemma insert_failure_is_409_or_500_witness :
  result (run (backend Toy.sound)
            (Server.register (Toy.credentials "a@x.com" "secret")) Toy.registered)
  = Ok (json 409 (JObj [("message",
          JStr "Email already exists. Please use a different email.")])).
Proof.
  refine (proj1 insert_failure_is_409_or_500 world (backend Toy.sound) Toy.registered
            (Toy.credentials "a@x.com" "secret") _ _
            (pg_error "23505" "duplicate key value violates unique constraint") _).
  cbn. right; right; left. reflexivity.
Defined.

(** C4 does not hold as stated: in [src/server.js] a second registration of
    a@x.com fails on the insert with code '23505' and is answered 409, but
    not with the message 'Email already exists.'. *)
Lemma duplicate_email_message_differs :
  let r := serve Toy.sound Server.app
             (PostRegister, Toy.credentials "a@x.com" "secret") Toy.registered in
  (exists text values e,
      In (EvQuery text values (Err e)) (trace r) /\ err_code e = JStr "23505")
  /\ users (final r) = users Toy.registered
  /\ result r <> Ok (json 409 (JObj [("message", JStr "Email already exists.")])).
Proof.
  cbn zeta. split; [| split].
  - do 3 eexists. split.
    + cbn. right; right; left. reflexivity.
    + reflexivity.
  - reflexivity.
  - vm_compute. discriminate.
Qed.

(** ** The stored row *)

(** C5: after a registration answered 201 the users table holds one more
    row, made of the supplied email (as the driver sends it: unchanged when
    it is a string), of the outcome of [bcrypt.hash] on the plaintext
    password and the salt that [bcrypt.genSalt(10)] drew for this request,
    and of that salt; the row has no other column than the identifier the
    store assigned, so the plaintext password is not in it. *)
Theorem stored_row_is_email_hash_salt :
  forall (X : externals) (f : file) (w : world) (req : request) (res : response),
    result (serve X (app_of f) (PostRegister, req) w) = Ok res ->
    status res = 201%Z ->
    let r := serve X (app_of f) (PostRegister, req) w in
    exists salt password_hash email,
      bcrypt_genSalt X 10 (salts_drawn w) = Ok salt
      /\ In (EvGenSalt 10 (Ok salt)) (trace r)
      /\ salts_drawn (final r) = S (salts_drawn w)
      /\ bcrypt_hash X (prop "password" (req_body req)) salt = Ok password_hash
      /\ In (EvHash (prop "password" (req_body req)) salt (Ok password_hash)) (trace r)
      /\ prepareValue X (prop "email" (req_body req)) = Some email
      /\ (forall s, prop "email" (req_body req) = JStr s -> email = s)
      /\ In (EvQuery
               "INSERT INTO users (email, password_hash, salt) VALUES ($1, $2, $3) RETURNING id"
               [prop "email" (req_body req); JStr password_hash; JStr salt]
               (Ok [[("id", id_value X (next_id w))]])) (trace r)
      /\ users (final r)
         = users w ++ [mkUser (next_id w) email password_hash salt].
Proof.
  intros X f w req res Hres Hstatus; cbn zeta.
  destruct (register_on_store X f w req) as [(_ & Hno & _) | (salt & h & email & H)].
  - exfalso. exact (Hno res Hres Hstatus).
  - destruct H as (_ & _ & Hs & Hh & Hv & _ & _ & Hf & _ & Ht).
    exists salt, h, email. rewrite Ht, Hf. cbn.
    repeat split; auto 6.
    intros s Hstr. rewrite Hstr in Hv. cbn in Hv. congruence.
Qed.

Lemma stored_row_is_email_hash_salt_witness :
  exists salt password_hash email,
    bcrypt_genSalt Toy.sound 10 0 = Ok salt
    /\ bcrypt_hash Toy.sound (JStr "secret") salt = Ok password_hash
    /\ users Toy.registered = [mkUser 1 email password_hash salt].
Proof.
  destruct (@stored_row_is_email_hash_salt Toy.sound ServerJs Toy.empty
              (Toy.credentials "a@x.com" "secret")
              (json 201 (JObj [("message", JStr "User registered successfully!");
                               ("userId", Toy.id_number 1)]))
              eq_refl eq_refl)
    as (salt & h & email & Hs & _ & _ & Hh & _ & _ & _ & _ & Hu).
  exists salt, h, email. auto.
Defined.

(** ** The users table over time *)

(** C9: stored user rows are never updated or deleted.  Each request issues
    at most one statement, which is the INSERT for a registration and a
    SELECT for a login or a lookup; login and lookup leave the users table
    as it was; and after any sequence of requests the table is the table
    before with rows added after it, so every row is still where it was,
    unchanged. *)
Theorem stored_users_are_never_changed :
  (forall (W : Type) (E : env W) (w : W) (f : file) (ep : endpoint) (req : request),
      length (filter is_query (trace (run E (app_of f ep req) w))) <= 1
      /\ forall text values r,
           In (EvQuery text values r) (trace (run E (app_of f ep req) w)) ->
           text = match ep with
                  | PostRegister =>
                      "INSERT INTO users (email, password_hash, salt) VALUES ($1, $2, $3) RETURNING id"
                  | PostLogin => "SELECT * FROM users WHERE email = $1"
                  | GetDocuments =>
                      "SELECT * FROM document_details WHERE country = $1 AND document_type = $2"
                  end)
  /\ (forall (X : externals) (f : file) (w : world) (req : request),
         users (final (serve X (app_of f) (PostLogin, req) w)) = users w
         /\ users (final (serve X (app_of f) (GetDocuments, req) w)) = users w)
  /\ (forall (X : externals) (f : file) (rs : list (endpoint * request)) (w : world),
         (exists added, users (serve_all X (app_of f) rs w) = users w ++ added)
         /\ forall i u,
              nth_error (users w) i = Some u ->
              nth_error (users (serve_all X (app_of f) rs w)) i = Some u).
Proof.
  split; [| split].
  - intros W E w f ep req.
    destruct f, ep; cbn [app_of Server.app Part000.app];
      unfold Server.register, Server.login, Server.documents,
             Part000.register, Part000.login, Part000.documents; cbn zeta;
      try split_guard; handler_cases E;
      (split; [cbn; lia | intros text values r Hin; failed_query Hin; reflexivity]).
  - intros X f w req.
    destruct (reads_leave_store X f w req) as [[H1 | H1] [H2 | H2]];
      rewrite H1, H2; split; reflexivity.
  - intros X f rs w.
    destruct (serve_all_extends X f rs w) as [added Ha].
    split; [exists added; exact Ha |].
    intros i u Hi. rewrite Ha.
    rewrite nth_error_app1; [exact Hi |].
    apply nth_error_Some. congruence.
Qed.

Lemma stored_users_are_never_changed_witness :
  nth_error (users (serve_all Toy.sound (app_of ServerJs)
                      [(PostRegister, Toy.credentials "b@x.com" "hunter2");
                       (PostLogin, Toy.credentials "a@x.com" "secret");
                       (PostRegister, Toy.credentials "a@x.com" "other")]
                      Toy.registered)) 0
  = Some (mkUser 1 "a@x.com" "secret$2b$10$" "$2b$10$").
Proof.
  apply (proj2 (proj2 (proj2 stored_users_are_never_changed) Toy.sound ServerJs
                  [(PostRegister, Toy.credentials "b@x.com" "hunter2");
                   (PostLogin, Toy.credentials "a@x.com" "secret");
                   (PostRegister, Toy.credentials "a@x.com" "other")]
                  Toy.registered)).
  reflexivity.
Defined.

(** ** Login against the store *)

Lemma login_on_store (X : externals) (f : file) (w : world) (req : request)
    (email : string) (u : user) (others : list user) (isMatch : bool) :
  truthy (prop "email" (req_body req)) = true ->
  truthy (prop "password" (req_body req)) = true ->
  prepareValue X (prop "email" (req_body req)) = Some email ->
  fault X (queries_issued w) = None ->
  filter (fun v => String.eqb (user_email v) email) (users w) = u :: others ->
  bcrypt_compare X (prop "password" (req_body req)) (JStr (user_password_hash u))
    = Ok isMatch ->
  result (serve X (app_of f) (PostLogin, req) w)
  = Ok (if isMatch
        then json 200 (JObj [("message", JStr "Login successful!")])
        else json 401 (JObj [("message", JStr "Invalid email or password.")])).
Proof.
  intros He Hp Hv Hf Hrows Hc.
  unfold serve; cbn [fst snd].
  assert (Hlogin : app_of f PostLogin = Server.login) by (destruct f; reflexivity).
  rewrite Hlogin.
  assert (Hq : backend X (Query "SELECT * FROM users WHERE email = $1"
                              [prop "email" (req_body req)]) w
               = (Ok (user_object X u :: map (user_object X) others), count_query w)).
  { cbn. unfold pool_query. rewrite Hf. unfold execute; cbn.
    unfold select_user; cbn. rewrite Hv, Hrows. reflexivity. }
  assert (Hc' : backend X (Compare (prop "password" (req_body req))
                             (prop "password_hash" (user_object X u))) (count_query w)
                = (Ok isMatch, count_query w)).
  { cbn. rewrite Hc. reflexivity. }
  rewrite (@login_found _ (backend X) _ _ _ req _ _ _ He Hp Hq Hc').
  reflexivity.
Qed.

(** C3 (as amended): against the store, when the insert of a registration
    does not fail the response is 201 and carries the identifier of the row
    the store added; a later login with the same body, after any other
    requests, is answered 500 'Internal server error during login.' when the
    store fails on the lookup of that login, and is answered 200 when the
    store answers that lookup, given that [bcrypt.compare] accepts a password
    against a hash [bcrypt.hash] made of it. *)
Theorem register_then_login :
  forall (X : externals) (f : file) (w : world) (req : request)
         (rs : list (endpoint * request)),
    (exists text values rows,
        In (EvQuery text values (Ok rows))
           (trace (serve X (app_of f) (PostRegister, req) w))) ->
    (exists u,
        users (final (serve X (app_of f) (PostRegister, req) w)) = users w ++ [u]
        /\ result (serve X (app_of f) (PostRegister, req) w)
           = Ok (json 201 (JObj [("message", JStr "User registered successfully!");
                                 ("userId", id_value X (user_id u))])))
    /\ (forall e,
          fault X (queries_issued
                     (serve_all X (app_of f) rs
                        (final (serve X (app_of f) (PostRegister, req) w)))) = Some e ->
          result (serve X (app_of f) (PostLogin, req)
                    (serve_all X (app_of f) rs
                       (final (serve X (app_of f) (PostRegister, req) w))))
          = Ok (json 500 (JObj [("message",
                  JStr "Internal server error during login.")])))
    /\ ((forall data salt h,
            bcrypt_hash X data salt = Ok h ->
            bcrypt_compare X data (JStr h) = Ok true) ->
        fault X (queries_issued
                   (serve_all X (app_of f) rs
                      (final (serve X (app_of f) (PostRegister, req) w)))) = None ->
        result (serve X (app_of f) (PostLogin, req)
                  (serve_all X (app_of f) rs
                     (final (serve X (app_of f) (PostRegister, req) w))))
        = Ok (json 200 (JObj [("message", JStr "Login successful!")]))).
Proof.
  intros X f w req rs (text & values & rows & Hin).
  destruct (register_on_store X f w req) as [(_ & _ & Hno) | (salt & h & email & H)].
  - exfalso. exact (Hno _ _ _ Hin).
  - destruct H as (He & Hp & _ & Hh & Hv & _ & Ht & Hf & Hr & _).
    split; [| split].
    + exists (mkUser (next_id w) email h salt). rewrite Hf, Hr. auto.
    + intros e Hfault.
      unfold serve at 1; cbn [fst snd].
      assert (Hlogin : app_of f PostLogin = Server.login) by (destruct f; reflexivity).
      rewrite Hlogin. unfold Server.login; cbn zeta.
      rewrite (truthy_guard _ _ He Hp). cbn.
      unfold pool_query. rewrite Hfault. reflexivity.
    + intros Hroundtrip Hfault.
      assert (Hrow :
        filter (fun v => String.eqb (user_email v) email)
               (users (final (serve X (app_of f) (PostRegister, req) w)))
        = [mkUser (next_id w) email h salt]).
      { rewrite Hf; cbn [users]. rewrite filter_app, (filter_not_taken _ _ Ht).
        cbn. now rewrite String.eqb_refl. }
      apply login_on_store
        with (email := email) (u := mkUser (next_id w) email h salt) (others := [])
             (isMatch := true); auto.
      * rewrite selected_rows_stable; [exact Hrow | rewrite Hrow; discriminate].
      * cbn. apply Hroundtrip with (salt := salt). exact Hh.
Qed.

Lemma prefix_append (p s : string) : String.prefix p (p ++ s)%string = true.
Proof.
  induction p as [| a p IH]; cbn.
  - destruct s; reflexivity.
  - destruct (ascii_dec a a); [exact IH | contradiction].
Qed.

Lemma toy_compare_accepts_hash (data : jsval) (salt h : string) :
  Toy.hash data salt = Ok h -> Toy.compare data (JStr h) = Ok true.
Proof.
  destruct data; cbn; try discriminate.
  intros H; injection H as <-. now rewrite prefix_append.
Qed.

Lemma register_then_login_witness :
  result (serve Toy.sound (app_of ServerJs)
            (PostLogin, Toy.credentials "a@x.com" "secret")
            (serve_all Toy.sound (app_of ServerJs)
               [(PostRegister, Toy.credentials "b@x.com" "hunter2");
                (PostLogin, Toy.credentials "a@x.com" "wrong")]
               (final (serve Toy.sound (app_of ServerJs)
                         (PostRegister, Toy.credentials "a@x.com" "secret")
                         Toy.empty))))
  = Ok (json 200 (JObj [("message", JStr "Login successful!")]))
  /\ result (serve (Toy.failing_at 3) (app_of ServerJs)
               (PostLogin, Toy.credentials "a@x.com" "secret")
               (serve_all (Toy.failing_at 3) (app_of ServerJs)
                  [(PostRegister, Toy.credentials "b@x.com" "hunter2");
                   (PostLogin, Toy.credentials "a@x.com" "wrong")]
                  (final (serve (Toy.failing_at 3) (app_of ServerJs)
                            (PostRegister, Toy.credentials "a@x.com" "secret")
                            Toy.empty))))
     = Ok (json 500 (JObj [("message", JStr "Internal server error during login.")])).
Proof.
  split.
  - apply (proj2 (proj2 (@register_then_login Toy.sound ServerJs
                    Toy.empty (Toy.credentials "a@x.com" "secret")
                    [(PostRegister, Toy.credentials "b@x.com" "hunter2");
                     (PostLogin, Toy.credentials "a@x.com" "wrong")]
                    (ex_intro _ _ (ex_intro _ _ (ex_intro _ _
                       (or_intror (or_intror (or_introl eq_refl))))))))).
    + exact toy_compare_accepts_hash.
    + reflexivity.
  - apply (proj1 (proj2 (@register_then_login (Toy.failing_at 3) ServerJs
                    Toy.empty (Toy.credentials "a@x.com" "secret")
                    [(PostRegister, Toy.credentials "b@x.com" "hunter2");
                     (PostLogin, Toy.credentials "a@x.com" "wrong")]
                    (ex_intro _ _ (ex_intro _ _ (ex_intro _ _
                       (or_intror (or_intror (or_introl eq_refl)))))))))
      with (e := Toy.connection_refused).
    reflexivity.
Defined.

(** C3 does not hold as stated: a registration whose insert succeeds is
    answered 201, and the login that follows with the same email and
    password is answered 500, not 200, when the store fails on its lookup. *)
Lemma login_after_register_can_be_500 :
  let X := Toy.failing_at 1 in
  let r := serve X Server.app (PostRegister, Toy.credentials "a@x.com" "secret")
             Toy.empty in
  (exists text values rows, In (EvQuery text values (Ok rows)) (trace r))
  /\ result r = Ok (json 201 (JObj [("message", JStr "User registered successfully!");
                                    ("userId", Toy.id_number 1)]))
  /\ result (serve X Server.app (PostLogin, Toy.credentials "a@x.com" "secret") (final r))
     = Ok (json 500 (JObj [("message", JStr "Internal server error during login.")])).
Proof.
  cbn zeta. split; [| split].
  - do 3 eexists. cbn. right; right; left. reflexivity.
  - reflexivity.
  - reflexivity.
Qed.

(** ** The salt column *)

Lemma prop_without_salt (o : jsobject) :
  prop "password_hash" (without "salt" o) = prop "password_hash" o.
Proof.
  unfold without. induction o as [| [k v] o IH].
  - reflexivity.
  - cbn [filter fst]. destruct (String.eqb k "salt") eqn:Hk; cbn [negb prop].
    + apply String.eqb_eq in Hk. subst k.
      change (String.eqb "password_hash" "salt") with false. exact IH.
    + destruct (String.eqb "password_hash" k); [reflexivity | exact IH].
Qed.

Lemma first_row_without_salt (rows rows' : list jsobject) :
  map (without "salt") rows = map (without "salt") rows' ->
  (rows = [] /\ rows' = [])
  \/ exists user others user' others',
       rows = user :: others /\ rows' = user' :: others'
       /\ prop "password_hash" user = prop "password_hash" user'.
Proof.
  destruct rows as [| user others], rows' as [| user' others']; cbn;
    intros H; try discriminate.
  - left; auto.
  - right. exists user, others, user', others'.
    injection H as H _. repeat split.
    rewrite <- (prop_without_salt user), <- (prop_without_salt user'). now rewrite H.
Qed.

Lemma filter_same_but_salt (email : string) (us vs : list user) :
  Forall2 same_but_salt us vs ->
  Forall2 same_but_salt
    (filter (fun u => String.eqb (user_email u) email) us)
    (filter (fun u => String.eqb (user_email u) email) vs).
Proof.
  induction 1 as [| u v us vs (Hid & Hemail & Hhash) _ IH]; cbn.
  - constructor.
  - rewrite Hemail. destruct (String.eqb (user_email v) email); auto.
    constructor; [repeat split; assumption | exact IH].
Qed.

(** C6: a login with both fields first issues the lookup by email; when a
    row is found the next call is [bcrypt.compare] on the supplied password
    and the [password_hash] of the first row; and nothing the handler does
    after the lookup depends on the [salt] column: two results that agree
    once [salt] is removed from their rows are continued by the same
    program, and against the store two users tables that differ only in
    their salt columns give the same response. *)
Theorem login_never_reads_salt :
  forall (req : request),
    truthy (prop "email" (req_body req)) = true ->
    truthy (prop "password" (req_body req)) = true ->
    (exists k,
        Server.login req
        = Vis (Query "SELECT * FROM users WHERE email = $1" [prop "email" (req_body req)]) k
        /\ (forall user others, exists k',
               k (Ok (user :: others))
               = Vis (Compare (prop "password" (req_body req))
                        (prop "password_hash" user)) k')
        /\ (forall rows rows',
               map (without "salt") rows = map (without "salt") rows' ->
               k (Ok rows) = k (Ok rows')))
    /\ Part000.login req = Server.login req
    /\ (forall (X : externals) (f : file) (w1 w2 : world),
           Forall2 same_but_salt (users w1) (users w2) ->
           queries_issued w1 = queries_issued w2 ->
           result (serve X (app_of f) (PostLogin, req) w1)
           = result (serve X (app_of f) (PostLogin, req) w2)).
Proof.
  intros req He Hp. split; [| split].
  - unfold Server.login; cbn zeta. rewrite (truthy_guard _ _ He Hp). cbn.
    eexists. split; [reflexivity |]. split.
    + intros user others. cbn. eexists. reflexivity.
    + intros rows rows' H.
      destruct (first_row_without_salt _ _ H)
        as [[-> ->] | (u & o & u' & o' & -> & -> & Hh)].
      * reflexivity.
      * cbn. rewrite Hh. reflexivity.
  - reflexivity.
  - intros X f w1 w2 Hu Hq.
    unfold serve; cbn [fst snd].
    assert (Hlogin : app_of f PostLogin = Server.login) by (destruct f; reflexivity).
    rewrite Hlogin. unfold Server.login; cbn zeta.
    rewrite (truthy_guard _ _ He Hp). cbn.
    unfold pool_query. rewrite <- Hq.
    destruct (fault X (queries_issued w1)); cbn; [reflexivity |].
    unfold execute; cbn. unfold select_user; cbn.
    destruct (prepareValue X (prop "email" (req_body req))) as [email |]; cbn;
      [| reflexivity].
    pose proof (filter_same_but_salt email Hu) as Hrows.
    destruct Hrows as [| u v us vs (_ & _ & Hhash) _]; cbn; [reflexivity |].
    rewrite Hhash.
    destruct (bcrypt_compare X (prop "password" (req_body req))
                (JStr (user_password_hash v))) as [[|] | e]; reflexivity.
Qed.

Lemma login_never_reads_salt_witness :
  result (serve Toy.sound (app_of ServerJs)
            (PostLogin, Toy.credentials "a@x.com" "secret") Toy.registered)
  = result (serve Toy.sound (app_of ServerJs)
              (PostLogin, Toy.credentials "a@x.com" "secret")
              (mkWorld [mkUser 1 "a@x.com" "secret$2b$10$" "another salt"] 2 [] 1 1)).
Proof.
  apply (proj2 (proj2 (@login_never_reads_salt (Toy.credentials "a@x.com" "secret")
                         eq_refl eq_refl))).
  - repeat constructor.
  - reflexivity.
Defined.

(** ** The scenarios of the specification, run on the small instance *)

Example falsy_values :
  map truthy [JUndefined; JNull; JBool false; JNum (S754_zero false);
              JNum (S754_zero true); JNum S754_nan; JStr EmptyString]
  = [false; false; false; false; false; false; false].
Proof. reflexivity. Qed.

Example truthy_values :
  map truthy [JBool true; Toy.id_number 1; JStr "0"; JArr []; JObj []]
  = [true; true; true; true; true].
Proof. reflexivity. Qed.

Example scenario_register_twice :
  let alice := (PostRegister, Toy.credentials "a@x.com" "secret") in
  let first := serve Toy.sound Part000.app alice Toy.empty in
  let second := serve Toy.sound Part000.app alice (final first) in
  result first = Ok (json 201 (JObj [("message", JStr "User registered successfully!");
                                     ("userId", Toy.id_number 1)]))
  /\ result second = Ok (json 409 (JObj [("message", JStr "Email already exists.")]))
  /\ users (final second) = users (final first).
Proof. repeat split. Qed.

Example scenario_login :
  result (serve Toy.sound Part000.app
            (PostLogin, Toy.credentials "a@x.com" "wrong") Toy.registered)
  = Ok (json 401 (JObj [("message", JStr "Invalid email or password.")]))
  /\ result (serve Toy.sound Part000.app
               (PostLogin, Toy.credentials "a@x.com" "secret") Toy.registered)
     = Ok (json 200 (JObj [("message", JStr "Login successful!")])).
Proof. split; reflexivity. Qed.

Example scenario_no_such_document :
  result (serve Toy.sound Server.app (GetDocuments, Toy.path "US" "passport") Toy.empty)
  = Ok (json 404 (JObj [("message",
          JStr "Document not found for the specified country and type.")])).
Proof. reflexivity. Qed.

Example scenario_password_not_a_string :
  result (serve Toy.sound Server.app
            (PostRegister,
             mkRequest [("email", JStr "a@x.com"); ("password", JBool true)] [])
            Toy.empty)
  = Ok (json 500 (JObj [("message", JStr "Internal server error during registration.")])).
Proof. reflexivity. Qed.

(** * Further properties of the handlers *)

(** ** Proof steps *)

Ltac unfold_handlers :=
  cbn [app_of Server.app Part000.app];
  unfold Server.register, Server.login, Server.documents,
         Part000.register, Part000.login, Part000.documents;
  cbn zeta.

(** Every way a handler of either file can run, one goal each. *)
Ltac all_runs E f ep :=
  destruct f, ep; unfold_handlers; try split_guard; handler_cases E.

(** Membership of an event in a trace that is known. *)
Ltac in_trace := cbn; repeat first [left; reflexivity | right].

(** The events a membership hypothesis on a known trace allows. *)
Ltac events H :=
  cbn in H;
  repeat match type of H with
         | _ \/ _ => destruct H as [H | H]
         | False => contradiction
         | _ = _ => first [discriminate H | inversion H; subst; clear H]
         end.

Ltac use_code :=
  repeat match goal with
         | H : strict_eq_str _ _ = _ |- _ => rewrite H
         end.

(** ** Registration *)

(** X1: when [bcrypt.genSalt] or [bcrypt.hash] rejects during a
    registration, no query is issued and the catch block answers as for any
    other error: 409 when the error carries the code '23505', 500
    otherwise. *)
Theorem register_bcrypt_failure_skips_insert :
  forall (W : Type) (E : env W) (w : W) (f : file) (req : request) (e : jserror),
    (exists rounds,
        In (EvGenSalt rounds (Err e)) (trace (run E (app_of f PostRegister req) w)))
    \/ (exists data salt,
        In (EvHash data salt (Err e)) (trace (run E (app_of f PostRegister req) w))) ->
    filter is_query (trace (run E (app_of f PostRegister req) w)) = []
    /\ result (run E (app_of f PostRegister req) w)
       = Ok (if strict_eq_str (err_code e) "23505"
             then json 409 (JObj [("message", JStr (conflict_message f))])
             else json 500 (JObj [("message",
                    JStr "Internal server error during registration.")])).
Proof.
  intros W E w f req.
  destruct f; unfold_handlers; split_guard; handler_cases E;
    intros e' [(rounds & H) | (data & salt & H)]; events H; use_code;
    split; reflexivity.
Qed.

Lemma register_bcrypt_failure_skips_insert_witness :
  filter is_query
    (trace (run (backend Toy.sound)
              (app_of ServerJs PostRegister
                 (mkRequest [("email", JStr "a@x.com"); ("password", JBool true)] []))
              Toy.empty)) = []
  /\ result (run (backend Toy.sound)
               (app_of ServerJs PostRegister
                  (mkRequest [("email", JStr "a@x.com"); ("password", JBool true)] []))
               Toy.empty)
     = Ok (json 500 (JObj [("message",
             JStr "Internal server error during registration.")])).
Proof.
  refine (@register_bcrypt_failure_skips_insert world (backend Toy.sound) Toy.empty
            ServerJs
            (mkRequest [("email", JStr "a@x.com"); ("password", JBool true)] [])
            Toy.not_a_string _).
  right. do 2 eexists. in_trace.
Defined.

(** X2: whatever the collaborators are, a registration hashes only the
    supplied password, with a salt that [bcrypt.genSalt(10)] returned in the
    same request, and issues a query only with the values [email], the hash
    [bcrypt.hash] returned for that password and salt, and that salt. *)
Theorem register_inserts_only_hashed :
  forall (W : Type) (E : env W) (w : W) (f : file) (req : request),
    (forall data salt r,
        In (EvHash data salt r) (trace (run E (app_of f PostRegister req) w)) ->
        data = prop "password" (req_body req)
        /\ In (EvGenSalt 10 (Ok salt)) (trace (run E (app_of f PostRegister req) w)))
    /\ (forall text values r,
        In (EvQuery text values r) (trace (run E (app_of f PostRegister req) w)) ->
        exists salt password_hash,
          In (EvGenSalt 10 (Ok salt)) (trace (run E (app_of f PostRegister req) w))
          /\ In (EvHash (prop "password" (req_body req)) salt (Ok password_hash))
                (trace (run E (app_of f PostRegister req) w))
          /\ values = [prop "email" (req_body req); JStr password_hash; JStr salt]).
Proof.
  intros W E w f req.
  destruct f; unfold_handlers; split_guard; handler_cases E;
    (split;
     [ intros data salt r H; events H; (split; [reflexivity | in_trace])
     | intros text values r H; events H;
       do 2 eexists; (split; [in_trace | split; [in_trace | reflexivity]]) ]).
Qed.

Lemma register_inserts_only_hashed_witness :
  exists salt password_hash,
    In (EvGenSalt 10 (Ok salt))
       (trace (run (backend Toy.sound)
                 (app_of ServerJs PostRegister (Toy.credentials "a@x.com" "secret"))
                 Toy.empty))
    /\ In (EvHash (JStr "secret") salt (Ok password_hash))
          (trace (run (backend Toy.sound)
                    (app_of ServerJs PostRegister (Toy.credentials "a@x.com" "secret"))
                    Toy.empty))
    /\ [JStr "a@x.com"; JStr "secret$2b$10$"; JStr "$2b$10$"]
       = [JStr "a@x.com"; JStr password_hash; JStr salt].
Proof.
  refine (proj2 (@register_inserts_only_hashed world (backend Toy.sound) Toy.empty
                   ServerJs (Toy.credentials "a@x.com" "secret"))
            "INSERT INTO users (email, password_hash, salt) VALUES ($1, $2, $3) RETURNING id"
            _ (Ok [[("id", Toy.id_number 1)]]) _).
  in_trace.
Defined.

(** X3: whatever the collaborators are, a registration is answered 201
    exactly when its query resolved with at least one row, and the [userId]
    of the answer is then the [id] property of the first row; when the query
    resolves with no row at all, reading [rows[0].id] throws inside the try
    block and the registration is answered 500. *)
Theorem register_201_iff_row_returned :
  forall (W : Type) (E : env W) (w : W) (f : file) (req : request),
  exists res,
    result (run E (app_of f PostRegister req) w) = Ok res
    /\ (status res = 201%Z <->
        exists text values row others,
          In (EvQuery text values (Ok (row :: others)))
             (trace (run E (app_of f PostRegister req) w)))
    /\ (forall text values row others,
          In (EvQuery text values (Ok (row :: others)))
             (trace (run E (app_of f PostRegister req) w)) ->
          res = json 201 (JObj [("message", JStr "User registered successfully!");
                                ("userId", prop "id" row)]))
    /\ (forall text values,
          In (EvQuery text values (Ok []))
             (trace (run E (app_of f PostRegister req) w)) ->
          res = json 500 (JObj [("message",
                  JStr "Internal server error during registration.")])).
Proof.
  intros W E w f req.
  destruct f; unfold_handlers; split_guard; handler_cases E;
    (eexists; split; [reflexivity |]);
    (split;
     [ split;
       [ intros H; first [discriminate H | do 4 eexists; in_trace]
       | intros (text & values & row & others & H); events H; reflexivity ]
     | split;
       [ intros text values row others H; events H; reflexivity
       | intros text values H; events H; reflexivity ] ]).
Qed.

Lemma register_201_iff_row_returned_witness :
  exists res,
    result (run (backend Toy.sound)
              (app_of ServerJs PostRegister (Toy.credentials "a@x.com" "secret"))
              Toy.empty) = Ok res
    /\ res = json 201 (JObj [("message", JStr "User registered successfully!");
                             ("userId", Toy.id_number 1)]).
Proof.
  destruct (@register_201_iff_row_returned world (backend Toy.sound) Toy.empty ServerJs
              (Toy.credentials "a@x.com" "secret")) as (res & Hres & _ & Hrow & _).
  exists res. split; [exact Hres |].
  refine (Hrow
    "INSERT INTO users (email, password_hash, salt) VALUES ($1, $2, $3) RETURNING id"
    _ [("id", Toy.id_number 1)] [] _).
  in_trace.
Defined.

(** ** Login *)

(** X4: whatever the collaborators are, a login is answered 200 exactly when
    [bcrypt.compare] resolved to true; and [bcrypt.compare] is only ever
    called after the lookup by email returned a row, on the supplied password
    and the [password_hash] property of the first row. *)
Theorem login_200_iff_compare_true :
  forall (W : Type) (E : env W) (w : W) (f : file) (req : request),
  exists res,
    result (run E (app_of f PostLogin req) w) = Ok res
    /\ (status res = 200%Z <->
        exists data encrypted,
          In (EvCompare data encrypted (Ok true))
             (trace (run E (app_of f PostLogin req) w)))
    /\ (forall data encrypted r,
          In (EvCompare data encrypted r) (trace (run E (app_of f PostLogin req) w)) ->
          data = prop "password" (req_body req)
          /\ exists row others,
               In (EvQuery "SELECT * FROM users WHERE email = $1"
                     [prop "email" (req_body req)] (Ok (row :: others)))
                  (trace (run E (app_of f PostLogin req) w))
               /\ encrypted = prop "password_hash" row).
Proof.
  intros W E w f req.
  destruct f; unfold_handlers; split_guard; handler_cases E;
    (eexists; split; [reflexivity |]);
    (split;
     [ split;
       [ intros H; first [discriminate H | do 2 eexists; in_trace]
       | intros (data & encrypted & H); events H; reflexivity ]
     | intros data encrypted r H; events H;
       (split; [reflexivity | do 2 eexists; (split; [in_trace | reflexivity])]) ]).
Qed.

Lemma login_200_iff_compare_true_witness :
  exists res,
    result (run (backend Toy.sound)
              (app_of ServerJs PostLogin (Toy.credentials "a@x.com" "secret"))
              Toy.registered) = Ok res
    /\ status res = 200%Z.
Proof.
  destruct (@login_200_iff_compare_true world (backend Toy.sound) Toy.registered ServerJs
              (Toy.credentials "a@x.com" "secret")) as (res & Hres & Hiff & _).
  exists res. split; [exact Hres |].
  apply Hiff. do 2 eexists. in_trace.
Defined.

(** ** All three handlers *)

(** X5: whatever the collaborators are, a handler writes to [console.error]
    at most once per request, under the label of its own catch block; every
    error a call was rejected with is the error it logs; and it logs exactly
    when it answers 409 or 500. *)
Theorem caught_errors_are_logged :
  forall (W : Type) (E : env W) (w : W) (f : file) (ep : endpoint) (req : request),
    length (filter is_console_error (trace (run E (app_of f ep req) w))) <= 1
    /\ (forall label e,
          In (EvConsoleError label e) (trace (run E (app_of f ep req) w)) ->
          label = error_label ep)
    /\ (forall ev e,
          In ev (trace (run E (app_of f ep req) w)) ->
          rejection ev = Some e ->
          In (EvConsoleError (error_label ep) e) (trace (run E (app_of f ep req) w)))
    /\ exists res,
         result (run E (app_of f ep req) w) = Ok res
         /\ ((exists label e,
                 In (EvConsoleError label e) (trace (run E (app_of f ep req) w)))
             <-> status res = 409%Z \/ status res = 500%Z).
Proof.
  intros W E w f ep req.
  all_runs E f ep;
    (split; [cbn; lia |]);
    (split; [intros label e' H; events H; reflexivity |]);
    (split;
     [ intros ev e' H Hr; cbn in H;
       repeat match type of H with
              | _ \/ _ => destruct H as [H | H]
              | False => contradiction
              | _ = ev => subst ev; cbn in Hr;
                          first [discriminate Hr | injection Hr as <-; in_trace]
              end
     | eexists; split;
       [ reflexivity
       | split;
         [ intros (label & e' & H); events H; cbn; auto
         | intros [H | H]; first [discriminate H | do 2 eexists; in_trace] ] ] ]).
Qed.

Lemma caught_errors_are_logged_witness :
  In (EvConsoleError "Error during login:" Toy.connection_refused)
     (trace (run (backend (Toy.failing_at 1))
               (app_of ServerJs PostLogin (Toy.credentials "a@x.com" "secret"))
               Toy.registered)).
Proof.
  refine (proj1 (proj2 (proj2
            (@caught_errors_are_logged world (backend (Toy.failing_at 1)) Toy.registered
               ServerJs PostLogin (Toy.credentials "a@x.com" "secret"))))
            (EvQuery "SELECT * FROM users WHERE email = $1" [JStr "a@x.com"]
               (Err Toy.connection_refused))
            Toy.connection_refused _ eq_refl).
  in_trace.
Defined.

(** X6: each handler sends only its own statuses: registration 201, 400,
    409 or 500; login 200, 400, 401 or 500; lookup 200, 404 or 500. *)
Theorem status_by_endpoint :
  forall (W : Type) (E : env W) (w : W) (f : file) (ep : endpoint) (req : request),
  exists res,
    result (run E (app_of f ep req) w) = Ok res
    /\ In (status res) (statuses ep).
Proof.
  intros W E w f ep req.
  all_runs E f ep; (eexists; split; [reflexivity | cbn; auto 6]).
Qed.

(** X7: registration never calls [bcrypt.compare] and asks [bcrypt.genSalt]
    for 10 rounds only; login never calls [bcrypt.genSalt] or [bcrypt.hash];
    lookup calls nothing of [bcrypt]. *)
Theorem bcrypt_calls_by_endpoint :
  forall (W : Type) (E : env W) (w : W) (f : file) (req : request),
    (existsb is_compare (trace (run E (app_of f PostRegister req) w)) = false
     /\ forall rounds r,
          In (EvGenSalt rounds r) (trace (run E (app_of f PostRegister req) w)) ->
          rounds = 10%Z)
    /\ existsb is_hashing (trace (run E (app_of f PostLogin req) w)) = false
    /\ existsb is_hashing (trace (run E (app_of f GetDocuments req) w)) = false
    /\ existsb is_compare (trace (run E (app_of f GetDocuments req) w)) = false.
Proof.
  intros W E w f req.
  split; [| split; [| split]].
  - destruct f; unfold_handlers; split_guard; handler_cases E;
      (split; [reflexivity | intros rounds r H; events H; reflexivity]).
  - destruct f; unfold_handlers; split_guard; handler_cases E; reflexivity.
  - destruct f; unfold_handlers; handler_cases E; reflexivity.
  - destruct f; unfold_handlers; handler_cases E; reflexivity.
Qed.

Lemma bcrypt_calls_by_endpoint_witness :
  existsb is_hashing
    (trace (run (backend Toy.sound)
              (app_of ServerJs PostLogin (Toy.credentials "a@x.com" "secret"))
              Toy.registered)) = false.
Proof.
  exact (proj1 (proj2 (@bcrypt_calls_by_endpoint world (backend Toy.sound)
                         Toy.registered ServerJs
                         (Toy.credentials "a@x.com" "secret")))).
Defined.

(** X8: registration and login depend on the request through [body.email]
    and [body.password] only, and lookup through [params.country] and
    [params.type] only: two requests that agree on them are handled by the
    same program, so no other field of the body and no other parameter has
    any effect. *)
Theorem handlers_ignore_other_fields :
  forall (f : file) (req req' : request),
    (prop "email" (req_body req) = prop "email" (req_body req') ->
     prop "password" (req_body req) = prop "password" (req_body req') ->
     app_of f PostRegister req = app_of f PostRegister req'
     /\ app_of f PostLogin req = app_of f PostLogin req')
    /\ (prop "country" (req_params req) = prop "country" (req_params req') ->
        prop "type" (req_params req) = prop "type" (req_params req') ->
        app_of f GetDocuments req = app_of f GetDocuments req').
Proof.
  intros f req req'. split.
  - intros He Hp. destruct f; unfold_handlers; rewrite He, Hp; split; reflexivity.
  - intros Hc Ht. destruct f; unfold_handlers; rewrite Hc, Ht; reflexivity.
Qed.

Lemma handlers_ignore_other_fields_witness :
  app_of ServerJs PostRegister
    (mkRequest [("role", JStr "admin"); ("email", JStr "a@x.com");
                ("password", JStr "secret")] [("id", JStr "7")])
  = app_of ServerJs PostRegister (Toy.credentials "a@x.com" "secret").
Proof.
  exact (proj1 (proj1 (@handlers_ignore_other_fields ServerJs
           (mkRequest [("role", JStr "admin"); ("email", JStr "a@x.com");
                       ("password", JStr "secret")] [("id", JStr "7")])
           (Toy.credentials "a@x.com" "secret")) eq_refl eq_refl)).
Defined.

(** X9: a lookup validates nothing: whatever its path parameters are, even
    missing, its first call is the query on them and it issues no other
    query; a login with both fields likewise starts with the query on the
    email and issues no other. *)
Theorem lookup_and_login_query_once :
  forall (W : Type) (E : env W) (w : W) (f : file) (req : request),
    (exists r rest,
        trace (run E (app_of f GetDocuments req) w)
        = EvQuery
            "SELECT * FROM document_details WHERE country = $1 AND document_type = $2"
            [prop "country" (req_params req); prop "type" (req_params req)] r :: rest
        /\ filter is_query rest = [])
    /\ (truthy (prop "email" (req_body req)) = true ->
        truthy (prop "password" (req_body req)) = true ->
        exists r rest,
          trace (run E (app_of f PostLogin req) w)
          = EvQuery "SELECT * FROM users WHERE email = $1"
              [prop "email" (req_body req)] r :: rest
          /\ filter is_query rest = []).
Proof.
  intros W E w f req. split.
  - destruct f; unfold_handlers; handler_cases E;
      do 2 eexists; (split; reflexivity).
  - intros He Hp.
    destruct f; unfold_handlers; rewrite (truthy_guard _ _ He Hp);
      handler_cases E; do 2 eexists; (split; reflexivity).
Qed.

Lemma lookup_and_login_query_once_witness :
  exists r rest,
    trace (run (backend Toy.sound)
             (app_of ServerJs PostLogin (Toy.credentials "a@x.com" "wrong"))
             Toy.registered)
    = EvQuery "SELECT * FROM users WHERE email = $1" [JStr "a@x.com"] r :: rest
    /\ filter is_query rest = [].
Proof.
  exact (proj2 (@lookup_and_login_query_once world (backend Toy.sound) Toy.registered
                  ServerJs (Toy.credentials "a@x.com" "wrong")) eq_refl eq_refl).
Defined.

(** ** Against the store *)





(** X11: once a registration has inserted its row, no later registration
    with the same email is answered 201 or adds a row, whatever its password
    and whatever requests were served in between; the table keeps exactly
    one row with that email. *)
Theorem registered_email_cannot_register_again :
  forall (X : externals) (f : file) (w : world) (req req' : request)
         (rs : list (endpoint * request)),
    (exists text values rows,
        In (EvQuery text values (Ok rows))
           (trace (serve X (app_of f) (PostRegister, req) w))) ->
    prop "email" (req_body req') = prop "email" (req_body req) ->
    let w' := serve_all X (app_of f) rs
                (final (serve X (app_of f) (PostRegister, req) w)) in
    users (final (serve X (app_of f) (PostRegister, req') w')) = users w'
    /\ (forall res,
           result (serve X (app_of f) (PostRegister, req') w') = Ok res ->
           status res <> 201%Z)
    /\ exists email u,
         prepareValue X (prop "email" (req_body req)) = Some email
         /\ filter (fun v => String.eqb (user_email v) email) (users w') = [u].
Proof.
  intros X f w req req' rs (text & values & rows & Hin) Hsame; cbn zeta.
  destruct (register_on_store X f w req) as [(_ & _ & Hno) | (salt & h & email & H)].
  { exfalso. exact (Hno _ _ _ Hin). }
  destruct H as (_ & _ & _ & _ & Hv & _ & Ht & Hf & _).
  set (w1 := final (serve X (app_of f) (PostRegister, req) w)) in *.
  assert (Hrow : filter (fun v => String.eqb (user_email v) email) (users w1)
                 = [mkUser (next_id w) email h salt]).
  { rewrite Hf; cbn [users]. rewrite filter_app, (filter_not_taken _ _ Ht).
    cbn. now rewrite String.eqb_refl. }
  assert (Hrow' : filter (fun v => String.eqb (user_email v) email)
                    (users (serve_all X (app_of f) rs w1))
                  = [mkUser (next_id w) email h salt]).
  { rewrite selected_rows_stable; [exact Hrow | rewrite Hrow; discriminate]. }
  assert (Htaken : email_taken email (users (serve_all X (app_of f) rs w1)) = true).
  { apply filter_taken. rewrite Hrow'. discriminate. }
  destruct (register_on_store X f (serve_all X (app_of f) rs w1) req')
    as [(Hu & Hs & _) | (salt' & h' & email' & H')].
  - split; [exact Hu | split; [exact Hs |]].
    exists email, (mkUser (next_id w) email h salt). auto.
  - exfalso. destruct H' as (_ & _ & _ & _ & Hv' & _ & Ht' & _).
    rewrite Hsame, Hv in Hv'. injection Hv' as <-. congruence.
Qed.

Lemma registered_email_cannot_register_again_witness :
  users (final (serve Toy.sound (app_of ServerJs)
                  (PostRegister, Toy.credentials "a@x.com" "other")
                  (serve_all Toy.sound (app_of ServerJs)
                     [(PostRegister, Toy.credentials "b@x.com" "secret")]
                     (final (serve Toy.sound (app_of ServerJs)
                               (PostRegister, Toy.credentials "a@x.com" "secret")
                               Toy.empty)))))
  = users (serve_all Toy.sound (app_of ServerJs)
             [(PostRegister, Toy.credentials "b@x.com" "secret")]
             (final (serve Toy.sound (app_of ServerJs)
                       (PostRegister, Toy.credentials "a@x.com" "secret")
                       Toy.empty))).
Proof.
  refine (proj1 (@registered_email_cannot_register_again Toy.sound ServerJs Toy.empty
                   (Toy.credentials "a@x.com" "secret")
                   (Toy.credentials "a@x.com" "other")
                   [(PostRegister, Toy.credentials "b@x.com" "secret")] _ eq_refl)).
  do 3 eexists. in_trace.
Defined.

(** X12: a login whose email no stored row has is never answered 200; with
    both fields present and a store that answers the lookup it is answered
    401 'Invalid email or password.'. *)
Theorem unknown_email_cannot_login :
  forall (X : externals) (f : file) (w : world) (req : request) (email : string),
    prepareValue X (prop "email" (req_body req)) = Some email ->
    email_taken email (users w) = false ->
    (forall res,
        result (serve X (app_of f) (PostLogin, req) w) = Ok res ->
        status res <> 200%Z)
    /\ (truthy (prop "email" (req_body req)) = true ->
        truthy (prop "password" (req_body req)) = true ->
        fault X (queries_issued w) = None ->
        result (serve X (app_of f) (PostLogin, req) w)
        = Ok (json 401 (JObj [("message", JStr "Invalid email or password.")]))).
Proof.
  intros X f w req email Hv Ht.
  unfold serve; cbn [fst snd].
  assert (Hlogin : app_of f PostLogin = Server.login) by (destruct f; reflexivity).
  rewrite Hlogin. unfold Server.login; cbn zeta.
  split.
  - split_guard; cbn; try (intros res H; injection H as <-; discriminate).
    unfold pool_query.
    destruct (fault X (queries_issued w)); cbn;
      [intros res H; injection H as <-; discriminate |].
    unfold execute; cbn. unfold select_user; cbn.
    rewrite Hv; cbn. rewrite (filter_not_taken _ _ Ht); cbn.
    intros res H; injection H as <-; discriminate.
  - intros He Hp Hf. rewrite (truthy_guard _ _ He Hp). cbn.
    unfold pool_query. rewrite Hf. unfold execute; cbn. unfold select_user; cbn.
    rewrite Hv; cbn. rewrite (filter_not_taken _ _ Ht). reflexivity.
Qed.

Lemma unknown_email_cannot_login_witness :
  result (serve Toy.sound (app_of ServerJs)
            (PostLogin, Toy.credentials "b@x.com" "secret") Toy.registered)
  = Ok (json 401 (JObj [("message", JStr "Invalid email or password.")])).
Proof.
  exact (proj2 (@unknown_email_cannot_login Toy.sound ServerJs Toy.registered
                  (Toy.credentials "b@x.com" "secret") "b@x.com" eq_refl eq_refl)
           eq_refl eq_refl eq_refl).
Defined.

Lemma first_of_filter (A : Type) (p : A -> bool) (l : list A) :
  find p l = match filter p l with
             | [] => None
             | a :: _ => Some a
             end.
Proof.
  induction l as [| a l IH]; cbn.
  - reflexivity.
  - destruct (p a); [reflexivity | exact IH].
Qed.

(** X13: against a store that answers the query, a lookup by a country and
    a type is answered 200 with the first stored document whose [country]
    and [document_type] are exactly these, and 404 when no stored document
    has both. *)
Theorem lookup_returns_matching_document :
  forall (X : externals) (f : file) (w : world) (req : request)
         (country type : string),
    prop "country" (req_params req) = JStr country ->
    prop "type" (req_params req) = JStr type ->
    fault X (queries_issued w) = None ->
    let wanted d := (String.eqb (doc_country d) country
                     && String.eqb (doc_document_type d) type)%bool in
    result (serve X (app_of f) (GetDocuments, req) w)
    = Ok (match find wanted (document_details w) with
          | Some d => json 200 (JObj (document_object d))
          | None => json 404 (JObj [("message",
                      JStr "Document not found for the specified country and type.")])
          end)
    /\ (forall d,
           find wanted (document_details w) = Some d ->
           In d (document_details w)
           /\ doc_country d = country /\ doc_document_type d = type)
    /\ (find wanted (document_details w) = None ->
        forall d, In d (document_details w) ->
                  ~ (doc_country d = country /\ doc_document_type d = type)).
Proof.
  intros X f w req country type Hc Ht Hf; cbn zeta.
  split; [| split].
  - unfold serve; cbn [fst snd].
    assert (Hdoc : app_of f GetDocuments = Server.documents) by (destruct f; reflexivity).
    rewrite Hdoc. unfold Server.documents; cbn zeta. rewrite Hc, Ht. cbn.
    unfold pool_query. rewrite Hf. unfold execute; cbn. unfold select_document; cbn.
    rewrite first_of_filter.
    destruct (filter _ (document_details w)); reflexivity.
  - intros d Hd. apply find_some in Hd. destruct Hd as (Hin & Hw).
    apply andb_true_iff in Hw. destruct Hw as (H1 & H2).
    apply String.eqb_eq in H1, H2. auto.
  - intros Hnone d Hin (H1 & H2).
    pose proof (find_none _ _ Hnone d Hin) as Hw. cbn in Hw.
    rewrite H1, H2, !String.eqb_refl in Hw. discriminate.
Qed.

Lemma lookup_returns_matching_document_witness :
  result (serve Toy.sound (app_of ServerJs) (GetDocuments, Toy.path "US" "passport")
            Toy.library)
  = Ok (json 200 (JObj (document_object Toy.us_passport))).
Proof.
  exact (proj1 (@lookup_returns_matching_document Toy.sound ServerJs Toy.library
                  (Toy.path "US" "passport") "US" "passport" eq_refl eq_refl eq_refl)).
Defined.


(** X18: against the store, a login is answered 200 only if a stored row
    has the email of the request and [bcrypt.compare] accepts the supplied
    password against the [password_hash] of that row; no failure of the store
    or of [bcrypt] opens another way in. *)
Theorem login_200_needs_stored_hash :
  forall (X : externals) (f : file) (w : world) (req : request) (res : response),
    result (serve X (app_of f) (PostLogin, req) w) = Ok res ->
    status res = 200%Z ->
    exists email u,
      prepareValue X (prop "email" (req_body req)) = Some email
      /\ In u (users w)
      /\ user_email u = email
      /\ bcrypt_compare X (prop "password" (req_body req))
           (JStr (user_password_hash u)) = Ok true.
Proof.
  intros X f w req res.
  unfold serve; cbn [fst snd].
  assert (Hlogin : app_of f PostLogin = Server.login) by (destruct f; reflexivity).
  rewrite Hlogin. unfold Server.login; cbn zeta.
  split_guard; cbn; try (intros H; injection H as <-; discriminate).
  unfold pool_query.
  destruct (fault X (queries_issued w)); cbn;
    [intros H; injection H as <-; discriminate |].
  unfold execute; cbn. unfold select_user; cbn.
  destruct (prepareValue X (prop "email" (req_body req))) as [email |]; cbn;
    [| intros H; injection H as <-; discriminate].
  destruct (filter (fun u => String.eqb (user_email u) email) (users w))
    as [| u us] eqn:Hrows; cbn;
    [intros H; injection H as <-; discriminate |].
  destruct (bcrypt_compare X (prop "password" (req_body req))
              (JStr (user_password_hash u))) as [[|] | e] eqn:Hc; cbn;
    intros H; injection H as <-; try discriminate.
  intros _. exists email, u.
  assert (Hin : In u (filter (fun u => String.eqb (user_email u) email) (users w)))
    by (rewrite Hrows; left; reflexivity).
  apply filter_In in Hin. destruct Hin as (Hin & He).
  apply String.eqb_eq in He. auto.
Qed.

Lemma login_200_needs_stored_hash_witness :
  exists email u,
    prepareValue Toy.sound (JStr "a@x.com") = Some email
    /\ In u (users Toy.registered)
    /\ user_email u = email
    /\ bcrypt_compare Toy.sound (JStr "secret") (JStr (user_password_hash u)) = Ok true.
Proof.
  exact (@login_200_needs_stored_hash Toy.sound ServerJs Toy.registered
           (Toy.credentials "a@x.com" "secret")
           (json 200 (JObj [("message", JStr "Login successful!")]))
           eq_refl eq_refl).
Defined.

(** ** The connection test at start-up *)

Lemma member_read (v : jsval) (k : string) :
  member v k = match read v k with
               | Ok x => Ret x
               | Err e => Throw e
               end.
Proof. destruct v; reflexivity. Qed.

Lemma read_truthy (v : jsval) (k : string) :
  truthy v = true -> exists x, read v k = Ok x.
Proof.
  destruct v; cbn; try discriminate; intros _; eexists; reflexivity.
Qed.

Ltac unfold_test f :=
  destruct f; cbn [connection_test];
  unfold server_connection_test, part000_connection_test;
  cbn [run_startup fst snd].

Ltac read_stack H :=
  let x := fresh "stack" in
  let Hx := fresh "Hstack" in
  destruct (@read_truthy _ "stack" H) as [x Hx]; rewrite Hx; cbn.

(** X15: when the pool hands a client to the connection test, the client is
    released exactly once, as soon as the test query calls back and before
    anything is logged or read from the result, whether the query failed or
    not; when the pool hands no client, nothing is released and no query is
    sent. *)
Theorem test_client_released_once :
  forall (P : pool_answers) (f : file),
    let t := fst (run_startup P (connection_test f)) in
    if truthy (connect_err P)
    then filter is_release t = []
         /\ forall text err rows, ~ In (SQueried text err rows) t
    else exists rest,
           t = [SConnected (connect_err P);
                SQueried "SELECT NOW()" (query_err P "SELECT NOW()")
                  (query_rows P "SELECT NOW()");
                SReleased] ++ rest
           /\ filter is_release rest = []
           /\ forall text err rows, ~ In (SQueried text err rows) rest.
Proof.
  intros P f; cbn zeta. unfold_test f;
    destruct (truthy (connect_err P)) eqn:Hc.
  all: try (read_stack Hc; split; [reflexivity | intros text err rows H; events H]).
  all: cbn; eexists; (split; [reflexivity |]);
    destruct (truthy (query_err P "SELECT NOW()")) eqn:Hq;
    [ read_stack Hq
    | destruct (query_rows P "SELECT NOW()") as [| row rows']; cbn ];
    (split; [reflexivity | intros text err rows H; events H]).
Qed.

(** X16: the connection test lets an error escape in one case only: the
    pool handed a client, the test query reported no error, and its result
    has no row, so that reading [rows[0].now] throws (after the client was
    released). *)
Theorem test_throws_only_on_empty_result :
  forall (P : pool_answers) (f : file),
    (exists e, snd (run_startup P (connection_test f)) = Err e)
    <-> truthy (connect_err P) = false
        /\ truthy (query_err P "SELECT NOW()") = false
        /\ query_rows P "SELECT NOW()" = [].
Proof.
  intros P f. unfold_test f;
    destruct (truthy (connect_err P)) eqn:Hc.
  all: try (read_stack Hc; split;
            [intros (e & H); discriminate H | intros (H & _); discriminate H]).
  all: cbn; destruct (truthy (query_err P "SELECT NOW()")) eqn:Hq;
    [ read_stack Hq; split;
      [intros (e & H); discriminate H | intros (_ & H & _); discriminate H]
    | destruct (query_rows P "SELECT NOW()") as [| row rows']; cbn; split;
      [ auto
      | intros _; eexists; reflexivity
      | intros (e & H); discriminate H
      | intros (_ & _ & H); discriminate H ] ].
Qed.

(** X17: the connection tests of the two files take the same steps, log the
    same values and end the same way; they differ only in the text of the
    labels they log under. *)
Theorem connection_tests_agree :
  forall (P : pool_answers),
    map unlabel (fst (run_startup P (connection_test ServerJs)))
    = map unlabel (fst (run_startup P (connection_test Part000File)))
    /\ snd (run_startup P (connection_test ServerJs))
       = snd (run_startup P (connection_test Part000File)).
Proof.
  intros P. cbn [connection_test].
  unfold server_connection_test, part000_connection_test.
  cbn [run_startup fst snd].
  destruct (truthy (connect_err P)) eqn:Hc.
  - read_stack Hc. split; reflexivity.
  - cbn. destruct (truthy (query_err P "SELECT NOW()")) eqn:Hq.
    + read_stack Hq. split; reflexivity.
    + destruct (query_rows P "SELECT NOW()"); cbn; split; reflexivity.
Qed.

Example connection_test_succeeds :
  run_startup
    (mkAnswers JUndefined (fun _ => JNull)
       (fun _ => [[("now", JStr "2025-01-01T00:00:00.000Z")]]))
    (connection_test ServerJs)
  = ([SConnected JUndefined;
      SQueried "SELECT NOW()" JNull [[("now", JStr "2025-01-01T00:00:00.000Z")]];
      SReleased;
      SLoggedInfo "Successfully connected to PostgreSQL on Render:"
        (JStr "2025-01-01T00:00:00.000Z")],
     Ok tt).
Proof. reflexivity. Qed.

Example connection_test_without_client :
  run_startup
    (mkAnswers (JObj [("stack", JStr "Error: connect ECONNREFUSED")])
       (fun _ => JNull) (fun _ => []))
    (connection_test Part000File)
  = ([SConnected (JObj [("stack", JStr "Error: connect ECONNREFUSED")]);
      SLoggedError "Error acquiring client" (JStr "Error: connect ECONNREFUSED")],
     Ok tt).
Proof. reflexivity. Qed.
